(** * sat_data: cache resolution, paginated retrieval and DISCOS clean-up

    A shallow embedding of [sat_data.py]: [get_data], [write_data],
    [read_data], [retrieve_discos_data], [clean_discos] with its six
    per-database cleaners, and [discos_params].

    Python values are an inductive type [pyval]; a [dict] is an
    association list in insertion order (Python dictionaries are ordered,
    and the column order of a frame follows it).  Code that can raise
    returns a [result]; code that touches the file system, the wall clock
    or the network runs in the monad [M] over an explicit [World], which
    keeps the state reached when an exception is raised.  [print] calls
    are not modelled. *)

From Stdlib Require Import ZArith QArith List String Ascii Bool Lia DecimalString.
Import ListNotations.

Set Warnings "-register-all".
Local Open Scope string_scope.
Local Open Scope list_scope.
Local Open Scope Z_scope.

Notation "s1 +++ s2" := (String.append s1 s2) (at level 60, right associativity).

(** ** Python values *)

Inductive pyval : Type :=
| VNone
| VNaN                                   (* float('nan'), pandas' missing marker *)
| VBool (b : bool)
| VInt (n : Z)
| VFloat (x : Q)                         (* a finite float, as the rational it denotes *)
| VStr (s : string)
| VList (l : list pyval)
| VDict (d : list (string * pyval))
| VTime (ns : Z).                        (* pandas Timestamp *)

Definition dict := list (string * pyval).

Inductive exn : Type :=
| MyError (args : list pyval)
| KeyError (labels : list string)
| IndexError
| TypeError
| ValueError
| OverflowError
| UnboundLocalError
| NotImplementedError
| JSONDecodeError
| ParserError
| ConnectionError
| OSError.

Inductive result (A : Type) : Type :=
| Ok (a : A)
| Raise (e : exn).
Arguments Ok {A} a.
Arguments Raise {A} e.

Definition rbind {A B} (r : result A) (k : A -> result B) : result B :=
  match r with
  | Ok a => k a
  | Raise e => Raise e
  end.

Notation "'let!' x ':=' r 'in' k" := (rbind r (fun x => k))
  (at level 10, x name, r at level 100, k at level 200).

Fixpoint mapR {A B} (f : A -> result B) (l : list A) : result (list B) :=
  match l with
  | [] => Ok []
  | a :: l' =>
      let! b := f a in
      let! bs := mapR f l' in
      Ok (b :: bs)
  end.

(** ** Dictionaries *)

Fixpoint dict_get {A} (k : string) (d : list (string * A)) : option A :=
  match d with
  | [] => None
  | (k', v) :: d' => if String.eqb k k' then Some v else dict_get k d'
  end.

(** [d[k] = v]: an existing key keeps its position. *)
Fixpoint dict_set {A} (k : string) (v : A) (d : list (string * A)) : list (string * A) :=
  match d with
  | [] => [(k, v)]
  | (k', v') :: d' =>
      if String.eqb k k' then (k, v) :: d' else (k', v') :: dict_set k v d'
  end.

Definition keys {A} (d : list (string * A)) : list string := map fst d.

Fixpoint mem (k : string) (l : list string) : bool :=
  match l with
  | [] => false
  | k' :: l' => String.eqb k k' || mem k l'
  end.

(** ** Built-ins used by the cleaners *)

(** What the embedding takes from the Python and pandas run time without
    modelling it: [repr] of floats, containers and timestamps,
    [float(str)], [pd.to_datetime] on a column, and the CSV codec. *)

Inductive pyfloat : Type :=
| FNan
| FInf (negative : bool)
| FFin (q : Q).

Record DataFrame : Type := mkFrame {
  columns : list string;
  rows : list (list pyval)
}.

Class PyRuntime : Type := {
  py_repr : pyval -> string;
  py_float : string -> option pyfloat;               (* None: ValueError *)
  to_datetime : list pyval -> option (list pyval);   (* None: parse failure *)
  to_csv : DataFrame -> string;
  read_csv : string -> option DataFrame              (* None: pandas raises *)
}.

Definition is_dict (v : pyval) : bool :=
  match v with VDict _ => true | _ => false end.

(** [bool(x)], as [not x] and [if x] use it. *)
Definition truthy (v : pyval) : bool :=
  match v with
  | VNone => false
  | VNaN => true
  | VBool b => b
  | VInt n => negb (Z.eqb n 0)
  | VFloat x => negb (Qeq_bool x 0)
  | VStr s => negb (String.eqb s "")
  | VList l => match l with [] => false | _ => true end
  | VDict d => match d with [] => false | _ => true end
  | VTime _ => true
  end.

Definition string_of_Z (n : Z) : string := NilZero.string_of_int (Z.to_int n).

Definition chars (s : string) : list pyval :=
  map (fun c => VStr (String c "")) (list_ascii_of_string s).

(** [len(x)] *)
Definition py_len (v : pyval) : result Z :=
  match v with
  | VStr s => Ok (Z.of_nat (String.length s))
  | VList l => Ok (Z.of_nat (List.length l))
  | VDict d => Ok (Z.of_nat (List.length d))
  | _ => Raise TypeError
  end.

(** [x[0]] *)
Definition getitem0 (v : pyval) : result pyval :=
  match v with
  | VList l => match l with a :: _ => Ok a | [] => Raise IndexError end
  | VStr s => match chars s with c :: _ => Ok c | [] => Raise IndexError end
  | VDict _ => Raise (KeyError ["0"])       (* JSON keys are strings, 0 is none of them *)
  | _ => Raise TypeError
  end.

(** [x[k]] for a string key [k] *)
Definition getitem (v : pyval) (k : string) : result pyval :=
  match v with
  | VDict d => match dict_get k d with Some a => Ok a | None => Raise (KeyError [k]) end
  | _ => Raise TypeError
  end.

(** [for xi in x] *)
Definition py_iter (v : pyval) : result (list pyval) :=
  match v with
  | VList l => Ok l
  | VStr s => Ok (chars s)
  | VDict d => Ok (map (fun kv => VStr (fst kv)) d)
  | _ => Raise TypeError
  end.

Section Builtins.
Context {RT : PyRuntime}.

(** [str(x)] *)
Definition py_str (v : pyval) : string :=
  match v with
  | VNone => "None"
  | VNaN => "nan"
  | VBool true => "True"
  | VBool false => "False"
  | VInt n => string_of_Z n
  | VStr s => s
  | _ => py_repr v
  end.

End Builtins.

(** *** [int(x)] *)

Definition is_digit (c : ascii) : bool :=
  let n := nat_of_ascii c in (48 <=? n)%nat && (n <=? 57)%nat.

Definition digit_val (c : ascii) : Z := Z.of_nat (nat_of_ascii c) - 48.

Definition is_space (c : ascii) : bool :=
  let n := nat_of_ascii c in
  ((9 <=? n)%nat && (n <=? 13)%nat) || ((28 <=? n)%nat && (n <=? 32)%nat).

Fixpoint lstrip (l : list ascii) : list ascii :=
  match l with
  | c :: l' => if is_space c then lstrip l' else l
  | [] => []
  end.

Definition strip (l : list ascii) : list ascii := rev (lstrip (rev (lstrip l))).

(** Digits with single underscores between them; [after_digit] tells
    whether the previous character was a digit. *)
Fixpoint int_digits (l : list ascii) (after_digit : bool) (acc : Z) : option Z :=
  match l with
  | [] => if after_digit then Some acc else None
  | c :: l' =>
      if is_digit c then int_digits l' true (10 * acc + digit_val c)
      else if Ascii.eqb c "_" then
        (if after_digit then int_digits l' false acc else None)
      else None
  end.

Definition int_of_string (s : string) : option Z :=
  match strip (list_ascii_of_string s) with
  | "-"%char :: l => option_map Z.opp (int_digits l false 0)
  | "+"%char :: l => int_digits l false 0
  | l => int_digits l false 0
  end.

Definition py_int (v : pyval) : result Z :=
  match v with
  | VInt n => Ok n
  | VBool b => Ok (if b then 1 else 0)
  | VFloat x => Ok (Z.quot (Qnum x) (Zpos (Qden x)))
  | VStr s => match int_of_string s with Some n => Ok n | None => Raise ValueError end
  | VNaN => Raise ValueError
  | _ => Raise TypeError
  end.


(** ** pandas frames

    A frame is its column labels and its rows, each row holding one cell
    per column.  Cells keep the Python objects ([object] dtype); the
    numeric dtype inference of pandas is not modelled.  The model follows
    pandas 1.3 to 1.5, the versions that have both the fast path of
    [json_normalize] and [DataFrame.append]. *)

Fixpoint index_of (c : string) (cols : list string) : option nat :=
  match cols with
  | [] => None
  | c' :: cols' =>
      if String.eqb c c' then Some O else option_map S (index_of c cols')
  end.

(** The cell of [row] under label [c]; a label the row lacks reads as NaN. *)
Definition cell (cols : list string) (row : list pyval) (c : string) : pyval :=
  match index_of c cols with
  | Some i => nth i row VNaN
  | None => VNaN
  end.

Definition reindex (old new : list string) (row : list pyval) : list pyval :=
  map (cell old row) new.

(** [_normalise_json]: nested dictionaries become dotted keys, everything
    else (lists included) is stored under the key reached so far. *)
Definition new_key (key_string key : string) : string :=
  if String.eqb key_string "" then key else key_string +++ "." +++ key.

Fixpoint normalise_json (data : pyval) (key_string : string) (normalized_dict : dict)
  {struct data} : dict :=
  match data with
  | VDict d =>
      (fix items (d : dict) (acc : dict) {struct d} : dict :=
         match d with
         | [] => acc
         | (key, value) :: d' =>
             items d' (normalise_json value (new_key key_string key) acc)
         end) d normalized_dict
  | _ => dict_set key_string data normalized_dict
  end.

(** [{**top, **nested}] *)
Definition dict_update (d1 d2 : dict) : dict :=
  fold_left (fun acc kv => dict_set (fst kv) (snd kv) acc) d2 d1.

(** [_normalise_json_ordered]: top-level scalars first, then the flattened
    nested part. *)
Definition normalise_json_ordered (data : dict) : dict :=
  let top_dict := filter (fun kv => negb (is_dict (snd kv))) data in
  let nested_dict :=
    normalise_json (VDict (filter (fun kv => is_dict (snd kv)) data)) "" [] in
  dict_update top_dict nested_dict.

(** [DataFrame(list_of_dicts)]: columns in order of first appearance. *)
Definition add_columns (cols : list string) (r : dict) : list string :=
  cols ++ filter (fun k => negb (mem k cols)) (keys r).

Definition get_or_nan (r : dict) (c : string) : pyval :=
  match dict_get c r with
  | Some v => v
  | None => VNaN
  end.

Definition record_row (cols : list string) (r : dict) : list pyval :=
  map (get_or_nan r) cols.

Definition frame_of_records (recs : list dict) : DataFrame :=
  let cols := fold_left add_columns recs [] in
  mkFrame cols (map (record_row cols) recs).

(** [_simple_json_normalize] on one element of the list. *)
Definition simple_json_normalize (row : pyval) : result dict :=
  match row with
  | VDict d => Ok (normalise_json_ordered d)
  | VList _ => Raise ValueError     (* a list of lists is no list of records *)
  | _ => Ok []
  end.

Definition json_normalize (data : pyval) : result DataFrame :=
  match data with
  | VList l =>
      let! recs := mapR simple_json_normalize l in
      Ok (frame_of_records recs)
  | VDict d => Ok (frame_of_records [normalise_json_ordered d])
  | _ => Raise NotImplementedError
  end.

(** [df.append(dfi, ignore_index = True)] *)
Definition append (df dfi : DataFrame) : DataFrame :=
  let cols := columns df ++ filter (fun c => negb (mem c (columns df))) (columns dfi) in
  mkFrame cols
    (map (reindex (columns df) cols) (rows df) ++
     map (reindex (columns dfi) cols) (rows dfi)).

(** [df.drop(columns = labels, inplace = True)]: every label must exist. *)
Fixpoint mask {A} (keep : list bool) (l : list A) : list A :=
  match keep, l with
  | b :: keep', a :: l' => if b then a :: mask keep' l' else mask keep' l'
  | _, _ => []
  end.

Definition drop (labels : list string) (df : DataFrame) : result DataFrame :=
  match filter (fun c => negb (mem c (columns df))) labels with
  | [] =>
      let keep := map (fun c => negb (mem c labels)) (columns df) in
      Ok (mkFrame (mask keep (columns df)) (map (mask keep) (rows df)))
  | missing => Raise (KeyError missing)
  end.

(** [df.rename(columns = mapping, inplace = True)]: absent labels are ignored. *)
Definition rename (mapping : list (string * string)) (df : DataFrame) : DataFrame :=
  mkFrame
    (map (fun c => match dict_get c mapping with Some c' => c' | None => c end)
         (columns df))
    (rows df).

Fixpoint set_nth {A} (i : nat) (a : A) (l : list A) : list A :=
  match i, l with
  | O, _ :: l' => a :: l'
  | S i', b :: l' => b :: set_nth i' a l'
  | _, [] => []
  end.

(** [df[c]] *)
Definition get_column (c : string) (df : DataFrame) : result (list pyval) :=
  match index_of c (columns df) with
  | Some i => Ok (map (fun row => nth i row VNaN) (rows df))
  | None => Raise (KeyError [c])
  end.

Fixpoint set_cells (i : nat) (vals : list pyval) (rws : list (list pyval))
  : list (list pyval) :=
  match vals, rws with
  | v :: vals', row :: rws' => set_nth i v row :: set_cells i vals' rws'
  | _, _ => []
  end.

(** [df[c] = series] for an existing label and a series of the frame's length. *)
Definition set_column (c : string) (vals : list pyval) (df : DataFrame)
  : result DataFrame :=
  match index_of c (columns df) with
  | Some i =>
      if Nat.eqb (List.length vals) (List.length (rows df))
      then Ok (mkFrame (columns df) (set_cells i vals (rows df)))
      else Raise ValueError
  | None => Raise (KeyError [c])
  end.

(** [df[c] = df[c].apply(f)] *)
Definition apply_column (c : string) (f : pyval -> result pyval) (df : DataFrame)
  : result DataFrame :=
  let! col := get_column c df in
  let! vals := mapR f col in
  set_column c vals df.

(** ** The cleaners *)

Section Cleaners.
Context {RT : PyRuntime}.

(** [lambda x: np.nan if not x else (str(x[0]['id']) if len(x) == 1
                                     else [str(xi['id']) for xi in x])] *)
Definition lambda_ref_ids (x : pyval) : result pyval :=
  if negb (truthy x) then Ok VNaN
  else
    let! n := py_len x in
    if Z.eqb n 1 then
      let! x0 := getitem0 x in
      let! i := getitem x0 "id" in
      Ok (VStr (py_str i))
    else
      let! xs := py_iter x in
      let! ids := mapR (fun xi => let! i := getitem xi "id" in Ok (VStr (py_str i))) xs in
      Ok (VList ids).

(** [lambda x: np.nan if x is None else str(x)] *)
Definition lambda_none_or_str (x : pyval) : result pyval :=
  match x with
  | VNone => Ok VNaN
  | _ => Ok (VStr (py_str x))
  end.

(** [lambda x : list(int(xx['id']) for xx in x)] *)
Definition lambda_discos_ids (x : pyval) : result pyval :=
  let! xs := py_iter x in
  let! ids := mapR (fun xx => let! i := getitem xx "id" in
                              let! n := py_int i in Ok (VInt n)) xs in
  Ok (VList ids).

(** [df[c] = pd.to_datetime(df[c])] *)
Definition to_datetime_column (c : string) (df : DataFrame) : result DataFrame :=
  let! col := get_column c df in
  match to_datetime col with
  | Some vals => set_column c vals df
  | None => Raise ValueError
  end.

Definition objects_drop_cols : list string :=
  [ "type";
    "relationships.states.links.self";
    "relationships.states.links.related";
    "relationships.initialOrbits.links.self";
    "relationships.initialOrbits.links.related";
    "relationships.launch.links.self";
    "relationships.launch.links.related";
    "relationships.launch.data.type";
    "relationships.reentry.links.self";
    "relationships.reentry.links.related";
    "relationships.reentry.data.type";
    "relationships.operators.links.self";
    "relationships.operators.links.related";
    "relationships.destinationOrbits.links.self";
    "relationships.destinationOrbits.links.related";
    "relationships.reentry.data";
    "relationships.launch.data";
    "links.self" ].

Definition objects_rename_cols : list (string * string) :=
  [ ("id", "DiscosID");
    ("attributes.cosparId", "IntlDes");
    ("attributes.xSectAvg", "XSectAvg");
    ("attributes.depth", "Depth");
    ("attributes.xSectMin", "XSectMin");
    ("attributes.vimpelId", "VimpelId");
    ("attributes.shape", "Shape");
    ("attributes.satno", "SatNo");
    ("attributes.name", "SatName");
    ("attributes.height", "Height");
    ("attributes.objectClass", "ObjectType");
    ("attributes.mass", "Mass");
    ("attributes.xSectMax", "XSectMax");
    ("attributes.length", "Length");
    ("relationships.initialOrbits.data", "InitOrbitId");
    ("relationships.launch.data.id", "LaunchId");
    ("relationships.reentry.data.id", "ReentryId");
    ("relationships.operators.data", "OperatorId");
    ("relationships.destinationOrbits.data", "DestOrbitId") ].

Definition clean_discos_objects (df : DataFrame) : result DataFrame :=
  let! df := drop objects_drop_cols df in
  let df := rename objects_rename_cols df in
  let! df := apply_column "InitOrbitId" lambda_ref_ids df in
  let! df := apply_column "DestOrbitId" lambda_ref_ids df in
  let! df := apply_column "OperatorId" lambda_ref_ids df in
  apply_column "VimpelId" lambda_none_or_str df.

Definition launches_drop_cols : list string :=
  [ "type";
    "relationships.site.links.self";
    "relationships.site.links.related";
    "relationships.site.data.type";
    "relationships.objects.links.self";
    "relationships.objects.links.related";
    "relationships.entities.links.self";
    "relationships.entities.links.related";
    "relationships.vehicle.links.self";
    "relationships.vehicle.links.related";
    "relationships.site.data";
    "links.self" ].

Definition launches_rename_cols : list (string * string) :=
  [ ("id", "LaunchId");
    ("relationships.site.data.id", "LaunchSiteId");
    ("attributes.epoch", "Epoch");
    ("attributes.flightNo", "FlightNo");
    ("attributes.failure", "Failure");
    ("attributes.cosparLaunchNo", "CosparLaunchNo") ].

Definition clean_discos_launches (df : DataFrame) : result DataFrame :=
  let! df := drop launches_drop_cols df in
  let df := rename launches_rename_cols df in
  let! df := apply_column "LaunchSiteId" lambda_none_or_str df in
  to_datetime_column "Epoch" df.

Definition reentries_drop_cols : list string :=
  [ "type";
    "relationships.objects.links.self";
    "relationships.objects.links.related";
    "links.self" ].

Definition reentries_rename_cols : list (string * string) :=
  [ ("id", "ReentryId"); ("attributes.epoch", "Epoch") ].

Definition clean_discos_reentries (df : DataFrame) : result DataFrame :=
  let! df := drop reentries_drop_cols df in
  let df := rename reentries_rename_cols df in
  to_datetime_column "Epoch" df.

Definition launchsites_drop_cols : list string :=
  [ "type";
    "relationships.launches.links.self";
    "relationships.launches.links.related";
    "relationships.operators.links.self";
    "relationships.operators.links.related";
    "links.self" ].

Definition launchsites_rename_cols : list (string * string) :=
  [ ("id", "LaunchSiteId");
    ("attributes.constraints", "Constraints");
    ("attributes.pads", "Pads");
    ("attributes.altitude", "Altitude");
    ("attributes.latitude", "Latitude");
    ("attributes.azimuths", "Azimuths");
    ("attributes.name", "Name");
    ("attributes.longitude", "Longitude") ].

Definition clean_discos_launchsites (df : DataFrame) : result DataFrame :=
  let! df := drop launchsites_drop_cols df in
  Ok (rename launchsites_rename_cols df).

Definition orbits_drop_cols : list string :=
  [ "type";
    "relationships.object.links.self";
    "relationships.object.links.related";
    "links.self" ].

Definition orbits_rename_cols : list (string * string) :=
  [ ("id", "OrbitId");
    ("attributes.sma", "SemiMajorAxis");
    ("attributes.epoch", "Epoch");
    ("attributes.aPer", "ArgPeriapsis");
    ("attributes.inc", "Inclination");
    ("attributes.mAno", "MeanAnomoly");
    ("attributes.ecc", "Eccentricity");
    ("attributes.raan", "RAAN");
    ("attributes.frame", "RefFrame") ].

Definition clean_discos_orbits (df : DataFrame) : result DataFrame :=
  let! df := drop orbits_drop_cols df in
  Ok (rename orbits_rename_cols df).

Definition fragmentations_drop_cols : list string :=
  [ "type";
    "relationships.objects.links.self";
    "relationships.objects.links.related";
    "links.self" ].

Definition fragmentations_rename_cols : list (string * string) :=
  [ ("id", "FragmentationId");
    ("attributes.eventType", "eventType");
    ("attributes.longitude", "Longitude");
    ("attributes.comment", "Comment");
    ("attributes.epoch", "Epoch");
    ("attributes.latitude", "Latitude");
    ("attributes.altitude", "Altitude");
    ("relationships.objects.data", "DiscosIds") ].

Definition clean_discos_fragmentations (df : DataFrame) : result DataFrame :=
  let! df := drop fragmentations_drop_cols df in
  let df := rename fragmentations_rename_cols df in
  let! df := to_datetime_column "Epoch" df in
  apply_column "DiscosIds" lambda_discos_ids df.

(** The dispatch table of [clean_discos]. *)
Definition clean : list (string * (DataFrame -> result DataFrame)) :=
  [ ("objects", clean_discos_objects);
    ("launches", clean_discos_launches);
    ("reentries", clean_discos_reentries);
    ("launch-sites", clean_discos_launchsites);
    ("initial-orbits", clean_discos_orbits);
    ("fragmentations", clean_discos_fragmentations) ].

Definition clean_discos (database : string) (df : DataFrame) : result DataFrame :=
  match dict_get database clean with
  | Some f => f df
  | None => Raise (KeyError [database])
  end.

End Cleaners.

(** ** Query parameters *)

Definition discos_params (database : string) : result dict :=
  if String.eqb database "objects" then
    Ok [ ("include", VStr "launch,reentry,initialOrbits,destinationOrbits,operators");
         ("page[number]", VInt 1);
         ("page[size]", VInt 100);
         ("sort", VStr "satno") ]
  else if String.eqb database "launches" then
    Ok [ ("include", VStr "site"); ("page[number]", VInt 1); ("page[size]", VInt 100) ]
  else if String.eqb database "launch-systems" then
    Ok [ ("page[number]", VInt 1); ("page[size]", VInt 100) ]
  else if String.eqb database "launch-sites" then
    Ok [ ("page[number]", VInt 1); ("page[size]", VInt 100) ]
  else if String.eqb database "initial-orbits" then
    Ok [ ("page[number]", VInt 1); ("page[size]", VInt 100) ]
  else if String.eqb database "destination-orbits" then
    Ok [ ("page[number]", VInt 1); ("page[size]", VInt 100) ]
  else if String.eqb database "fragmentation-event-types" then
    Ok [ ("page[number]", VInt 1); ("page[size]", VInt 100) ]
  else if String.eqb database "fragmentations" then
    Ok [ ("include", VStr "objects"); ("page[number]", VInt 1); ("page[size]", VInt 100) ]
  else if String.eqb database "reentries" then
    Ok [ ("page[number]", VInt 1); ("page[size]", VInt 100) ]
  else if String.eqb database "entities" then
    Ok [ ("page[number]", VInt 1); ("page[size]", VInt 100) ]
  else Raise UnboundLocalError.

(** ** Dates and the date stamp of a file name *)

(** A [datetime] as Python stores it: calendar fields, and the time of day
    in microseconds since midnight. *)
Record datetime : Type := mkDatetime {
  year : Z;
  month : Z;
  day : Z;
  usec : Z
}.

Definition is_leap (y : Z) : bool :=
  Z.eqb (y mod 4) 0 && (negb (Z.eqb (y mod 100) 0) || Z.eqb (y mod 400) 0).

Definition days_in_month (y m : Z) : Z :=
  if Z.eqb m 2 then (if is_leap y then 29 else 28)
  else if Z.eqb m 4 || Z.eqb m 6 || Z.eqb m 9 || Z.eqb m 11 then 30
  else 31.

Definition days_before_year (y : Z) : Z :=
  let y := y - 1 in y * 365 + y / 4 - y / 100 + y / 400.

Definition days_before_month (y m : Z) : Z :=
  nth (Z.to_nat m) [0; 0; 31; 59; 90; 120; 151; 181; 212; 243; 273; 304; 334] 0
  + (if (2 <? m) && is_leap y then 1 else 0).

Definition ymd2ord (y m d : Z) : Z :=
  days_before_year y + days_before_month y m + d.

Definition valid_date (y m d : Z) : bool :=
  (1 <=? y) && (y <=? 9999) && (1 <=? m) && (m <=? 12) &&
  (1 <=? d) && (d <=? days_in_month y m).

Definition day_us : Z := 86400000000.

Definition valid_datetime (t : datetime) : bool :=
  valid_date (year t) (month t) (day t) && (0 <=? usec t) && (usec t <? day_us).

(** Microseconds since the start of day 0; subtraction of two datetimes is
    the difference of these. *)
Definition to_us (t : datetime) : Z :=
  ymd2ord (year t) (month t) (day t) * day_us + usec t.

Definition timedelta_days (d : Z) : Z := d * day_us.

(** [re.findall(r'\d{4}-\d{2}-\d{2}', f)] on ASCII text. *)
Definition is_dash (c : ascii) : bool := Ascii.eqb c "-".

Definition date_at (s : string) : option string :=
  match s with
  | String a (String b (String c (String d (String e (String f (String g
      (String h (String i (String j _))))))))) =>
      if is_digit a && is_digit b && is_digit c && is_digit d && is_dash e &&
         is_digit f && is_digit g && is_dash h && is_digit i && is_digit j
      then Some (String a (String b (String c (String d (String e (String f
             (String g (String h (String i (String j ""))))))))))
      else None
  | _ => None
  end.

(** [skip] counts the characters of the last match still to pass over:
    matches do not overlap. *)
Fixpoint findall_from (s : string) (skip : nat) : list string :=
  match s with
  | "" => []
  | String _ s' =>
      match skip with
      | S k => findall_from s' k
      | O =>
          match date_at s with
          | Some m => m :: findall_from s' 9
          | None => findall_from s' 0
          end
      end
  end.

Definition findall_date (s : string) : list string := findall_from s 0.

Fixpoint last_opt {A} (l : list A) : option A :=
  match l with
  | [] => None
  | [a] => Some a
  | _ :: l' => last_opt l'
  end.

Definition num2 (a b : ascii) : Z := 10 * digit_val a + digit_val b.

(** [dt.datetime.strptime(s, '%Y-%m-%d')] on a stamp found by the pattern
    above: the digits must name a date of the calendar. *)
Definition strptime (s : string) : result datetime :=
  match date_at s with
  | Some (String a (String b (String c (String d (String _ (String f (String g
      (String _ (String i (String j ""))))))))))  =>
      let y := 100 * num2 a b + num2 c d in
      let m := num2 f g in
      let d := num2 i j in
      if (String.length s =? 10)%nat && valid_date y m d
      then Ok (mkDatetime y m d 0)
      else Raise ValueError
  | _ => Raise ValueError
  end.

Definition digit_char (n : Z) : ascii := ascii_of_nat (48 + Z.to_nat (n mod 10)).

Definition pad2 (n : Z) : string :=
  String (digit_char (n / 10)) (String (digit_char n) "").

Definition pad4 (n : Z) : string :=
  String (digit_char (n / 1000)) (String (digit_char (n / 100)) (pad2 n)).

(** [t.strftime('%Y-%m-%d')], the year written with four digits. *)
Definition strftime (t : datetime) : string :=
  pad4 (year t) +++ "-" +++ pad2 (month t) +++ "-" +++ pad2 (day t).





(** ** The world: cache directory, wall clock, remote API *)

Record request : Type := mkRequest {
  url : string;
  req_headers : list (string * string);
  params : dict
}.

(** A response as the code looks at it: [response.ok], the headers, and
    what [response.json()] returns ([None]: the body is no JSON). *)
Record response : Type := mkResponse {
  ok : bool;
  headers : list (string * string);
  json : option pyval
}.

Inductive event : Type :=
| Get (r : request)                 (* requests.get *)
| Sleep (secs : Q)                  (* time.sleep *)
| ReadFile (path : string)          (* pd.read_csv *)
| WriteFile (path : string).        (* df.to_csv *)

(** [esa_data] lists the plain files of [./esa_data] by name with their
    contents, in the order [glob] reports them ([None]: no such directory).
    The n-th call of [dt.datetime.now()] returns [clock n], the n-th
    [requests.get] is answered by [net n].  [trace] logs the effects in
    the order they happen. *)
Record World : Type := mkWorld {
  esa_data : option (list (string * string));
  clock : nat -> datetime;
  clock_reads : nat;
  net : nat -> request -> result response;
  net_calls : nat;
  trace : list event
}.

Definition M (A : Type) : Type := World -> result A * World.

Definition ret {A} (a : A) : M A := fun w => (Ok a, w).

Definition bind {A B} (m : M A) (k : A -> M B) : M B :=
  fun w =>
    match m w with
    | (Ok a, w') => k a w'
    | (Raise e, w') => (Raise e, w')
    end.

Definition raise {A} (e : exn) : M A := fun w => (Raise e, w).

Definition lift {A} (r : result A) : M A := fun w => (r, w).

Notation "x <- m ;; k" := (bind m (fun x => k))
  (at level 100, m at next level, right associativity).
Notation "m ;;; k" := (bind m (fun _ => k))
  (at level 100, right associativity).

Definition log (e : event) (w : World) : World :=
  mkWorld (esa_data w) (clock w) (clock_reads w) (net w) (net_calls w) (trace w ++ [e]).

(** [dt.datetime.now()] *)
Definition datetime_now : M datetime :=
  fun w =>
    (Ok (clock w (clock_reads w)),
     mkWorld (esa_data w) (clock w) (S (clock_reads w)) (net w) (net_calls w) (trace w)).

Definition esa_token : string := "YourTokenHere".

(** [requests.get(db_url, headers = discos_headers, params = params)] *)
Definition requests_get (db_url : string) (discos_headers : list (string * string))
  (params : dict) : M response :=
  fun w =>
    let r := mkRequest db_url discos_headers params in
    (net w (net_calls w) r,
     mkWorld (esa_data w) (clock w) (clock_reads w) (net w) (S (net_calls w))
             (trace w ++ [Get r])).

(** [time.sleep(x)] *)
Definition time_sleep (x : pyfloat) : M unit :=
  match x with
  | FNan => raise ValueError
  | FInf true => raise ValueError
  | FInf false => raise OverflowError
  | FFin q => if Qle_bool 0 q then fun w => (Ok tt, log (Sleep q) w) else raise ValueError
  end.

(** [x + 5] on floats, the rounding of the sum left out. *)
Definition fadd5 (x : pyfloat) : pyfloat :=
  match x with
  | FFin q => FFin (q + 5)%Q
  | _ => x
  end.

Definition path_of (name : string) : string := "./esa_data/" +++ name.

(** [glob.glob(os.path.join('./esa_data', f'{database}_*'))] for a
    [database] without glob metacharacters: the files whose name starts
    with [database] and an underscore. *)
Definition glob_esa_data (database : string) : M (list string) :=
  fun w =>
    match esa_data w with
    | Some files =>
        (Ok (map path_of
               (filter (String.prefix (database +++ "_")) (keys files))), w)
    | None => (Ok [], w)
    end.

Fixpoint find_file (path : string) (files : list (string * string)) : option string :=
  match files with
  | [] => None
  | (name, content) :: files' =>
      if String.eqb path (path_of name) then Some content else find_file path files'
  end.

(** Lower-case comparison of header names, as [requests] does it. *)
Definition lower (c : ascii) : ascii :=
  let n := nat_of_ascii c in
  if (65 <=? n)%nat && (n <=? 90)%nat then ascii_of_nat (n + 32) else c.

Fixpoint lower_string (s : string) : string :=
  match s with
  | "" => ""
  | String c s' => String (lower c) (lower_string s')
  end.

Fixpoint header_get (name : string) (hs : list (string * string)) : result string :=
  match hs with
  | [] => Raise (KeyError [name])
  | (k, v) :: hs' =>
      if String.eqb (lower_string name) (lower_string k) then Ok v
      else header_get name hs'
  end.

(** [response.json()] *)
Definition response_json (r : response) : result pyval :=
  match json r with
  | Some v => Ok v
  | None => Raise JSONDecodeError
  end.

(** [range(2, last_page + 1)] *)
Definition page_range (last_page : pyval) : result (list Z) :=
  match last_page with
  | VInt n => Ok (map Z.of_nat (seq 2 (Z.to_nat (n - 1))))
  | VBool _ => Ok []
  | _ => Raise TypeError
  end.

Section Pipeline.
Context {RT : PyRuntime}.

(** ** [read_data], [write_data] *)

Definition read_data (filename : string) : M DataFrame :=
  fun w =>
    let w' := log (ReadFile filename) w in
    match esa_data w with
    | Some files =>
        match find_file filename files with
        | Some content =>
            match read_csv content with
            | Some df => (Ok df, w')
            | None => (Raise ParserError, w')
            end
        | None => (Raise OSError, w')
        end
    | None => (Raise OSError, w')
    end.

(** [df.to_csv(output_file, index = False)] into [./esa_data]: an existing
    file of that name is replaced, a new one is added to the directory. *)
Definition to_csv_file (name : string) (df : DataFrame) : M unit :=
  fun w =>
    match esa_data w with
    | Some files =>
        (Ok tt,
         mkWorld (Some (dict_set name (to_csv df) files)) (clock w) (clock_reads w)
                 (net w) (net_calls w) (trace w ++ [WriteFile (path_of name)]))
    | None => (Raise OSError, w)
    end.

Definition write_data (df : DataFrame) (prefix : string) : M unit :=
  now <- datetime_now ;;
  let datestr := strftime now in
  to_csv_file (prefix +++ "_" +++ datestr +++ ".csv") df.

(** ** [retrieve_discos_data] *)

(** [response.json()['data']] *)
Definition page_data (response : response) : result pyval :=
  let! j := response_json response in
  getitem j "data".

(** Lines 128 to 144: the request for one page, its rate-limit header, and
    the one repetition of the request after the wait.  Returns the
    response the loop goes on with. *)
Definition request_page (db_url : string) (discos_headers : list (string * string))
  (params : dict) : M response :=
  response <- requests_get db_url discos_headers params ;;
  limit_remain <- lift (let! h := header_get "X-Ratelimit-Remaining" (headers response) in
                        py_int (VStr h)) ;;
  if Z.eqb limit_remain 0 then
    wait_time <- lift (let! h := header_get "Retry-After" (headers response) in
                       match py_float h with
                       | Some x => Ok (fadd5 x)
                       | None => Raise ValueError
                       end) ;;
    time_sleep wait_time ;;;
    requests_get db_url discos_headers params
  else ret response.

(** The loop over the pages 2 .. last_page (lines 125 to 148). *)
Fixpoint pages_loop (db_url : string) (discos_headers : list (string * string))
  (pages : list Z) (params : dict) (df : DataFrame) : M DataFrame :=
  match pages with
  | [] => ret df
  | page :: pages' =>
      let params := dict_set "page[number]" (VInt page) params in
      response <- request_page db_url discos_headers params ;;
      dat <- lift (page_data response) ;;
      dfi <- lift (json_normalize dat) ;;
      pages_loop db_url discos_headers pages' params (append df dfi)
  end.

Definition discos_url : string := "https://discosweb.esoc.esa.int".
Definition db_url (database : string) : string := discos_url +++ "/api/" +++ database.
Definition discos_headers : list (string * string) :=
  [("Authorization", "Bearer " +++ esa_token)].

(** [response.json()['meta']['pagination']['totalPages']] *)
Definition total_pages (response : response) : result pyval :=
  let! j := response_json response in
  let! meta := getitem j "meta" in
  let! pagination := getitem meta "pagination" in
  getitem pagination "totalPages".

(** Lines 100 to 148: the first request and the loop, before the clean-up. *)
Definition fetch_pages (database : string) : M DataFrame :=
  params <- lift (discos_params database) ;;
  response <- requests_get (db_url database) discos_headers params ;;
  if negb (ok response) then
    payload <- lift (let! j := response_json response in getitem j "error") ;;
    raise (MyError [payload; VStr "Discos request failed"])
  else
    dat <- lift (page_data response) ;;
    df <- lift (json_normalize dat) ;;
    last_page <- lift (total_pages response) ;;
    pages <- lift (page_range last_page) ;;
    pages_loop (db_url database) discos_headers pages params df.

Definition retrieve_discos_data (database : string) : M DataFrame :=
  df <- fetch_pages database ;;
  lift (clean_discos database df).

(** ** [get_data] *)

Definition max_age_days : Z := 365.

(** The loop over [filelist] (lines 50 to 60), carrying [min_delta_t] and
    [recent_file] ([None] while the name is unbound). *)
Fixpoint scan_files (filelist : list string) (min_delta_t : Z) (recent_file : option string)
  : M (Z * option string) :=
  match filelist with
  | [] => ret (min_delta_t, recent_file)
  | f :: filelist' =>
      match last_opt (findall_date f) with
      | None => scan_files filelist' min_delta_t recent_file
      | Some f_date =>
          f_date <- lift (strptime f_date) ;;
          now <- datetime_now ;;
          let delta_t := to_us now - to_us f_date in
          if delta_t <? min_delta_t
          then scan_files filelist' delta_t (Some f)
          else scan_files filelist' min_delta_t recent_file
      end
  end.

Definition get_data (database : string) : M DataFrame :=
  let max_delta_t := timedelta_days max_age_days in
  _now <- datetime_now ;;
  filelist <- glob_esa_data database ;;
  match filelist with
  | [] =>
      df <- retrieve_discos_data database ;;
      write_data df database ;;;
      ret df
  | _ =>
      st <- scan_files filelist (timedelta_days max_age_days) None ;;
      let '(min_delta_t, recent_file) := st in
      if min_delta_t <? max_delta_t then
        match recent_file with
        | Some f => read_data f
        | None => raise UnboundLocalError
        end
      else
        df <- retrieve_discos_data database ;;
        write_data df database ;;;
        ret df
  end.

End Pipeline.

Definition supported (database : string) : bool :=
  mem database
    ["objects"; "launches"; "reentries"; "launch-sites"; "initial-orbits"; "fragmentations"].

(** [normalize]: flattening a sequence of raw records and cleaning it, the
    two steps [retrieve_discos_data] applies to the records it fetched. *)
Definition normalize {RT : PyRuntime} (database : string) (data : pyval)
  : result DataFrame :=
  let! df := json_normalize data in
  clean_discos database df.

(** ** Sample data *)

Module Sample.

(** A run time to compute with: [float] reads decimal integers, a column
    of date strings is accepted as it is, a CSV file lists the column
    labels, and an empty file cannot be read. *)
Definition runtime : PyRuntime := {|
  py_repr := fun _ => "<repr>";
  py_float := fun s => option_map (fun n => FFin (inject_Z n)) (int_of_string s);
  to_datetime := fun col => Some col;
  to_csv := fun df => String.concat "," (columns df);
  read_csv := fun s =>
    if String.eqb s "" then None else Some (mkFrame ["text"] [[VStr s]])
|}.

Definition reentry_record (id epoch : string) : dict :=
  [ ("type", VStr "reentry");
    ("id", VStr id);
    ("attributes", VDict [("epoch", VStr epoch)]);
    ("relationships",
     VDict [("objects",
             VDict [("links",
                     VDict [("self", VStr ("/api/reentries/" +++ id +++ "/relationships/objects"));
                            ("related", VStr ("/api/reentries/" +++ id +++ "/objects"))])])]);
    ("links", VDict [("self", VStr ("/api/reentries/" +++ id))]) ].

Definition reentry (id epoch : string) : pyval := VDict (reentry_record id epoch).

Definition body (data : list pyval) (total_pages : Z) : pyval :=
  VDict [ ("data", VList data);
          ("meta", VDict [("pagination", VDict [("totalPages", VInt total_pages)])]) ].

Definition quota (remaining : string) : list (string * string) :=
  [("Content-Type", "application/vnd.api+json"); ("X-Ratelimit-Remaining", remaining)].

Definition page_number (r : request) : option pyval := dict_get "page[number]" (params r).

Definition noon : datetime := mkDatetime 2026 11 4 43200000000.

Definition world (files : option (list (string * string)))
  (server : nat -> request -> result response) : World :=
  mkWorld files (fun _ => noon) 0 server 0 [].

Definition reentries_request (page : Z) : request :=
  mkRequest "https://discosweb.esoc.esa.int/api/reentries"
            [("Authorization", "Bearer YourTokenHere")]
            [("page[number]", VInt page); ("page[size]", VInt 100)].

(** Three pages of re-entries; the second request is answered with a
    server error whose body is [error_body]. *)
Definition failing_page2 (error_body : pyval) : nat -> request -> result response :=
  fun _ r =>
    match page_number r with
    | Some (VInt 1) =>
        Ok (mkResponse true (quota "98") (Some (body [reentry "1" "2020-01-01"] 3)))
    | Some (VInt 2) => Ok (mkResponse false (quota "97") (Some error_body))
    | Some (VInt 3) =>
        Ok (mkResponse true (quota "96") (Some (body [reentry "3" "2020-03-03"] 3)))
    | _ => Raise ConnectionError
    end.

Definition error_with_data : pyval :=
  VDict [ ("data", VList []);
          ("error", VDict [("status", VStr "500"); ("title", VStr "Internal Server Error")]) ].

Definition error_without_data : pyval :=
  VDict [ ("error", VDict [("status", VStr "500"); ("title", VStr "Internal Server Error")]) ].


(** Two pages; the first answer to the request for page 2 (the second
    request on the wire) reports a used-up quota, the repetition does not. *)
Definition quota_used_on_page2 : nat -> request -> result response :=
  fun n r =>
    match page_number r with
    | Some (VInt 1) =>
        Ok (mkResponse true (quota "1") (Some (body [reentry "1" "2020-01-01"] 2)))
    | Some (VInt 2) =>
        if Nat.eqb n 1
        then Ok (mkResponse true (quota "0" ++ [("Retry-After", "10")])
                            (Some (body [] 2)))
        else Ok (mkResponse true (quota "99") (Some (body [reentry "2" "2020-02-02"] 2)))
    | _ => Raise ConnectionError
    end.


(** Re-entries number [first] to [first + count - 1]. *)
Definition reentries (first count : nat) : list dict :=
  map (fun i => reentry_record (string_of_Z (Z.of_nat i)) "2020-01-01") (seq first count).

(** Three pages of 100, 100 and 50 re-entries. *)
Definition three_pages : nat -> request -> result response :=
  fun _ r =>
    match page_number r with
    | Some (VInt 1) =>
        Ok (mkResponse true (quota "99") (Some (body (map VDict (reentries 1 100)) 3)))
    | Some (VInt 2) =>
        Ok (mkResponse true (quota "98") (Some (body (map VDict (reentries 101 100)) 3)))
    | Some (VInt 3) =>
        Ok (mkResponse true (quota "97") (Some (body (map VDict (reentries 201 50)) 3)))
    | _ => Raise ConnectionError
    end.


(** One page holding one re-entry. *)
Definition one_page : nat -> request -> result response :=
  fun _ r =>
    match page_number r with
    | Some (VInt 1) =>
        Ok (mkResponse true (quota "99") (Some (body [reentry "7" "2021-05-06"] 1)))
    | _ => Raise ConnectionError
    end.

(** A cache directory with a stale file, a file without a date stamp and
    a file of another database. *)
Definition stale_cache : list (string * string) :=
  [ ("reentries_2020-01-01.csv", "ReentryId,Epoch");
    ("reentries_latest.csv", "ReentryId,Epoch");
    ("objects_2026-11-01.csv", "DiscosID") ].

(** A cache directory with two dated files of [objects], the younger one
    34 days old, and a copy without a stamp. *)
Definition fresh_cache : list (string * string) :=
  [ ("objects_2025-01-01.csv", "DiscosID,older");
    ("objects_2026-10-01.csv", "DiscosID,younger");
    ("objects_copy.csv", "DiscosID,copy") ].


(** A fresh file beside one whose stamp has the shape of a date and names
    none. *)
Definition cache_with_bad_stamp : list (string * string) :=
  [ ("objects_2026-10-01.csv", "DiscosID,younger");
    ("objects_2026-13-40.csv", "DiscosID") ].

(** A fresh file that is empty, which [read_csv] refuses. *)
Definition cache_with_empty_file : list (string * string) :=
  [ ("objects_2026-10-01.csv", "") ].


(** *** Raw records of [objects] and [fragmentations] *)

Definition reference (type id : string) : pyval :=
  VDict [("type", VStr type); ("id", VStr id)].

Definition relation_links (path : string) : pyval :=
  VDict [ ("self", VStr (path +++ "/relationships"));
          ("related", VStr path) ].

Definition space_object (id name : string) (vimpel launch reentry : pyval)
  (initial_orbits destination_orbits operators : list pyval) : dict :=
  let path := "/api/objects/" +++ id in
  [ ("type", VStr "object");
    ("id", VStr id);
    ("attributes",
     VDict [ ("cosparId", VStr ("1957-001" +++ id));
             ("vimpelId", vimpel);
             ("satno", VInt 2);
             ("name", VStr name);
             ("objectClass", VStr "Payload");
             ("mass", VFloat (836 # 10)) ]);
    ("relationships",
     VDict [ ("states", VDict [("links", relation_links (path +++ "/states"))]);
             ("initialOrbits",
              VDict [ ("links", relation_links (path +++ "/initial-orbits"));
                      ("data", VList initial_orbits) ]);
             ("launch",
              VDict [ ("links", relation_links (path +++ "/launch"));
                      ("data", launch) ]);
             ("reentry",
              VDict [ ("links", relation_links (path +++ "/reentry"));
                      ("data", reentry) ]);
             ("operators",
              VDict [ ("links", relation_links (path +++ "/operators"));
                      ("data", VList operators) ]);
             ("destinationOrbits",
              VDict [ ("links", relation_links (path +++ "/destination-orbits"));
                      ("data", VList destination_orbits) ]) ]);
    ("links", VDict [("self", VStr path)]) ].

(** A launched and re-entered object with one initial orbit, and an object
    without launch and re-entry that has two initial orbits. *)
Definition objects_batch : list dict :=
  [ space_object "1" "Sputnik" VNone (reference "launch" "77") (reference "reentry" "5")
                 [reference "initialOrbit" "11"] [] [reference "organisation" "3"];
    space_object "2" "Fragment" (VStr "123") VNone VNone
                 [reference "initialOrbit" "21"; reference "initialOrbit" "22"] [] [] ].



Definition frame_or_empty (r : result DataFrame) : DataFrame :=
  match r with
  | Ok df => df
  | Raise _ => mkFrame [] []
  end.

End Sample.

(** ** Vocabulary of the statements *)

Definition net_event (e : event) : Prop :=
  match e with Get _ | Sleep _ => True | _ => False end.

(** [w'] differs from [w] by network traffic and waiting only. *)
Definition only_network (w w' : World) : Prop :=
  esa_data w' = esa_data w /\ clock w' = clock w /\ clock_reads w' = clock_reads w /\
  net w' = net w /\ (net_calls w <= net_calls w')%nat /\
  exists evs, trace w' = trace w ++ evs /\ Forall net_event evs.

Definition preserves (R : World -> World -> Prop) {A} (m : M A) : Prop :=
  forall w r w', m w = (r, w') -> R w w'.

(** The world after [requests.get] has sent [r]. *)
Definition after_get (w : World) (r : request) : World :=
  mkWorld (esa_data w) (clock w) (clock_reads w) (net w) (S (net_calls w))
          (trace w ++ [Get r]).

(** [pages_served u h pages params w ds w']: starting in [w], the requests
    for [pages] are answered one after the other, each answer (after the
    repetition of the request, if any) carrying a list of records; [ds]
    lists those record lists in page order, [w'] is the world reached. *)
Inductive pages_served {RT : PyRuntime} (u : string) (h : list (string * string))
  : list Z -> dict -> World -> list (list dict) -> World -> Prop :=
| served_nil params w : pages_served u h [] params w [] w
| served_cons page pages params w r w1 d ds w2 :
    request_page u h (dict_set "page[number]" (VInt page) params) w = (Ok r, w1) ->
    page_data r = Ok (VList (map VDict d)) ->
    pages_served u h pages (dict_set "page[number]" (VInt page) params) w1 ds w2 ->
    pages_served u h (page :: pages) params w (d :: ds) w2.

(** *** The cache scan, as the statements speak of it *)

(** The candidates [glob] finds for [database] among [files]. *)
Definition candidates (database : string) (files : list (string * string)) : list string :=
  map path_of (filter (String.prefix (database +++ "_")) (keys files)).

(** The date stamp of a path: the last match of the date pattern. *)
Definition stamp (f : string) : option string := last_opt (findall_date f).

(** A candidate the scan gets past: no stamp, or one that names a date. *)
Definition stamp_ok (f : string) : bool :=
  match stamp f with
  | None => true
  | Some s => match strptime s with Ok _ => true | Raise _ => false end
  end.

Definition has_stamp (f : string) : bool :=
  match stamp f with Some _ => true | None => false end.

(** The ages the scan measures, in microseconds, each with the clock
    reading of its own turn; [k] counts the readings made before.  The
    list ends where a stamp names no date. *)
Fixpoint measured_ages (clock : nat -> datetime) (k : nat) (filelist : list string)
  : list (string * Z) :=
  match filelist with
  | [] => []
  | f :: filelist' =>
      match stamp f with
      | None => measured_ages clock k filelist'
      | Some s =>
          match strptime s with
          | Ok d => (f, to_us (clock k) - to_us d) :: measured_ages clock (S k) filelist'
          | Raise _ => []
          end
      end
  end.

(** The running minimum the scan keeps. *)
Fixpoint pick (ages : list (string * Z)) (min_delta_t : Z) (recent_file : option string)
  : Z * option string :=
  match ages with
  | [] => (min_delta_t, recent_file)
  | (f, a) :: ages' =>
      if a <? min_delta_t then pick ages' a (Some f) else pick ages' min_delta_t recent_file
  end.

(** The world after [n] more readings of the clock. *)
Definition tick (n : nat) (w : World) : World :=
  mkWorld (esa_data w) (clock w) (n + clock_reads w) (net w) (net_calls w) (trace w).

(** What [read_data] returns for a file of the given content. *)
Definition read_result {RT : PyRuntime} (content : string) : result DataFrame :=
  match read_csv content with
  | Some df => Ok df
  | None => Raise ParserError
  end.

(** The two branches of [get_data], as one computation on the scan. *)
Definition fetch_and_store {RT : PyRuntime} (database : string) : M DataFrame :=
  df <- retrieve_discos_data database ;;
  write_data df database ;;;
  ret df.

Definition resolve {RT : PyRuntime} (database : string) (filelist : list string)
  : M DataFrame :=
  st <- scan_files filelist (timedelta_days max_age_days) None ;;
  if fst st <? timedelta_days max_age_days then
    match snd st with
    | Some f => read_data f
    | None => raise UnboundLocalError
    end
  else fetch_and_store database.

Fixpoint no_digits (s : string) : bool :=
  match s with
  | "" => true
  | String c s' => negb (is_digit c) && no_digits s'
  end.

(** *** Raw records, as the statements speak of them *)

(** [v[k1][k2]...] through nested dictionaries. *)
Fixpoint get_path (p : list string) (v : pyval) : option pyval :=
  match p with
  | [] => Some v
  | k :: p' =>
      match v with
      | VDict d =>
          match dict_get k d with
          | Some x => get_path p' x
          | None => None
          end
      | _ => None
      end
  end.

Fixpoint dot_free (s : string) : bool :=
  match s with
  | "" => true
  | String c s' => negb (Ascii.eqb c ".") && dot_free s'
  end.

Definition key_ok (k : string) : bool := negb (String.eqb k "") && dot_free k.

Fixpoint nodup_keys (l : list string) : bool :=
  match l with
  | [] => true
  | k :: l' => negb (mem k l') && nodup_keys l'
  end.

(** A record as the API sends it: at every level of nested dictionaries
    the keys are distinct, non-empty and free of dots.  Lists are not
    looked into. *)
Fixpoint wf_record (v : pyval) : bool :=
  match v with
  | VDict d =>
      nodup_keys (keys d) &&
      (fix all (d : dict) : bool :=
         match d with
         | [] => true
         | (k, x) :: d' => key_ok k && wf_record x && all d'
         end) d
  | _ => true
  end.

(** The assignments [_normalise_json] makes, in the order it makes them. *)
Fixpoint leaves (v : pyval) (key_string : string) : list (string * pyval) :=
  match v with
  | VDict d =>
      (fix items (d : dict) : list (string * pyval) :=
         match d with
         | [] => []
         | (k, x) :: d' => leaves x (new_key key_string k) ++ items d'
         end) d
  | _ => [(key_string, v)]
  end.

(** [x] is reached from [v] along the keys [p]. *)
Fixpoint on_path (p : list string) (v x : pyval) : Prop :=
  match p with
  | [] => x = v
  | k :: p' => exists d y, v = VDict d /\ In (k, y) d /\ key_ok k = true /\ on_path p' y x
  end.

(** The tail of a dotted key. *)
Fixpoint dots (p : list string) : string :=
  match p with
  | [] => ""
  | k :: p' => "." +++ k +++ dots p'
  end.

(** The cell of row [i] of a frame under label [c]. *)
Definition frame_cell (df : DataFrame) (i : nat) (c : string) : pyval :=
  cell (columns df) (nth i (rows df) []) c.

(** Every row has one cell per column. *)
Definition wf_frame (df : DataFrame) : Prop :=
  Forall (fun row => List.length row = List.length (columns df)) (rows df).

(** Two dot-free heads followed by nothing or by a dot: equal strings have
    equal heads and equal rests. *)
Definition rest_ok (r : string) : Prop :=
  r = "" \/ exists r', r = String "." r'.

(** The labels the cleaner of a database drops. *)
Definition drop_cols_of (database : string) : list string :=
  if String.eqb database "objects" then objects_drop_cols
  else if String.eqb database "launches" then launches_drop_cols
  else if String.eqb database "reentries" then reentries_drop_cols
  else if String.eqb database "launch-sites" then launchsites_drop_cols
  else if String.eqb database "initial-orbits" then orbits_drop_cols
  else if String.eqb database "fragmentations" then fragmentations_drop_cols
  else [].

(** What a cleaner made of [drop], [rename] and column assignments keeps:
    [df'] is well formed, has as many rows as [df], and none of its
    columns bears one of the dropped [labels]. *)
Definition cleaned (labels : list string) (df df' : DataFrame) : Prop :=
  wf_frame df' /\ List.length (rows df') = List.length (rows df) /\
  forall c, In c (columns df') -> mem c labels = false.

(** * Properties *)

(** ** The monad and the effects of the pipeline *)

Ltac run := unfold bind, lift, ret, raise in *; simpl in *.

Section Properties.
Context {RT : PyRuntime}.

Lemma supported_clean (database : string) :
  supported database = false -> dict_get database (clean (RT := RT)) = None.
Proof.
  unfold supported, clean. simpl.
  repeat (destruct (String.eqb database _); [discriminate|]). reflexivity.
Qed.

Lemma supported_params (database : string) :
  supported database = true -> exists params, discos_params database = Ok params.
Proof.
  unfold supported, discos_params. simpl.
  repeat (destruct (String.eqb database _); simpl;
          [intros _; repeat (destruct (String.eqb database _)); eexists; reflexivity|]).
  discriminate.
Qed.

Lemma only_network_refl w : only_network w w.
Proof.
  unfold only_network. repeat split; auto.
  exists []. rewrite app_nil_r. auto.
Qed.

Lemma only_network_trans w1 w2 w3 :
  only_network w1 w2 -> only_network w2 w3 -> only_network w1 w3.
Proof.
  intros (A1 & A2 & A3 & A4 & A5 & e1 & A6 & A7) (B1 & B2 & B3 & B4 & B5 & e2 & B6 & B7).
  unfold only_network. repeat split; try congruence; try lia.
  exists (e1 ++ e2). split.
  - rewrite B6, A6, app_assoc. reflexivity.
  - apply Forall_app; auto.
Qed.

Lemma preserves_bind {A B} (m : M A) (k : A -> M B) :
  preserves only_network m -> (forall a, preserves only_network (k a)) ->
  preserves only_network (bind m k).
Proof.
  intros Hm Hk w r w'. unfold bind.
  destruct (m w) as [[a|e] w1] eqn:E; intros H.
  - eapply only_network_trans; [eapply Hm; eauto | eapply Hk; eauto].
  - inversion H; subst. eapply Hm; eauto.
Qed.

Lemma preserves_lift {A} (r : result A) : preserves only_network (lift r).
Proof. intros w r' w' H. inversion H. apply only_network_refl. Qed.

Lemma preserves_ret {A} (a : A) : preserves only_network (ret a).
Proof. intros w r' w' H. inversion H. apply only_network_refl. Qed.

Lemma preserves_raise {A} (e : exn) : preserves only_network (@raise A e).
Proof. intros w r' w' H. inversion H. apply only_network_refl. Qed.

Lemma preserves_requests_get u h p : preserves only_network (requests_get u h p).
Proof.
  intros w r w' H. unfold requests_get in H. inversion H; subst; clear H.
  unfold only_network; simpl. repeat split; auto.
  exists [Get (mkRequest u h p)]. split; [reflexivity|]. repeat constructor.
Qed.

Lemma preserves_time_sleep x : preserves only_network (time_sleep x).
Proof.
  intros w r w' H. unfold time_sleep in H.
  destruct x as [|[|]|q]; try (inversion H; apply only_network_refl).
  destruct (Qle_bool 0 q); inversion H; subst; [|apply only_network_refl].
  unfold only_network, log; simpl. repeat split; auto.
  exists [Sleep q]. split; [reflexivity|]. repeat constructor.
Qed.

Create HintDb effects.
#[local] Hint Resolve preserves_lift preserves_ret preserves_raise preserves_requests_get
  preserves_time_sleep : effects.

Ltac effects :=
  repeat first [ solve [auto with effects] | apply preserves_bind; [|intros ?] ].

Lemma preserves_request_page u h p : preserves only_network (request_page u h p).
Proof.
  unfold request_page. effects.
  destruct (Z.eqb _ 0); effects.
Qed.

#[local] Hint Resolve preserves_request_page : effects.

Lemma preserves_pages_loop u h pages :
  forall p df, preserves only_network (pages_loop u h pages p df).
Proof.
  induction pages as [|page pages IH]; intros p df; simpl.
  - effects.
  - effects.
Qed.

#[local] Hint Resolve preserves_pages_loop : effects.

Lemma preserves_fetch_pages database : preserves only_network (fetch_pages database).
Proof.
  unfold fetch_pages. effects.
  destruct (negb _); effects.
Qed.

#[local] Hint Resolve preserves_fetch_pages : effects.

Lemma preserves_retrieve_discos_data database :
  preserves only_network (retrieve_discos_data database).
Proof. unfold retrieve_discos_data. effects. Qed.

(** C8, amended.  For each of the six supported databases the clean-up of
    the empty sequence of raw records does not succeed.  The sequence
    flattens to a frame without rows and without columns, and the first
    step of the clean-up, which drops the link and type columns, fails
    with a KeyError on the labels it does not find. *)
Theorem normalize_empty_raises (database : string) :
  supported database = true ->
  json_normalize (VList []) = Ok (mkFrame [] []) /\
  exists labels, labels <> [] /\
    normalize database (VList []) = Raise (KeyError labels).
Proof.
  intros H. split; [reflexivity|].
  unfold normalize. simpl. unfold frame_of_records. simpl.
  unfold supported in H. simpl in H. unfold clean_discos, clean. simpl.
  repeat (destruct (String.eqb database _); simpl;
          [eexists; split; [|reflexivity]; discriminate|]).
  discriminate H.
Qed.

Lemma retrieve_unsupported (database : string) (w : World) :
  supported database = false ->
  retrieve_discos_data database w =
    match fetch_pages database w with
    | (Ok _, w1) => (Raise (KeyError [database]), w1)
    | (Raise e, w1) => (Raise e, w1)
    end.
Proof.
  intros H. unfold retrieve_discos_data, bind, lift, clean_discos.
  rewrite (supported_clean _ H). destruct (fetch_pages database w) as [[df|e] w1]; reflexivity.
Qed.

(** C10.  A database name outside the six supported ones never gets a
    dataset out of the fetch-and-normalize path: [retrieve_discos_data]
    ends in an exception.  A name without a branch in [discos_params]
    fails there with UnboundLocalError before any request is made; a name
    that has one fails at the latest in the dispatch table of
    [clean_discos] with a KeyError.  [get_data] checks nothing itself: on
    an empty cache directory it hands the name on and fails the same
    way, writing no file. *)
Theorem unsupported_database_raises (database : string) (w : World) :
  supported database = false ->
  (exists e w', retrieve_discos_data database w = (Raise e, w')) /\
  (discos_params database = Raise UnboundLocalError ->
     retrieve_discos_data database w = (Raise UnboundLocalError, w)) /\
  (forall df w1, fetch_pages database w = (Ok df, w1) ->
     retrieve_discos_data database w = (Raise (KeyError [database]), w1)) /\
  (esa_data w = Some [] ->
     exists e w', get_data database w = (Raise e, w') /\ esa_data w' = Some []).
Proof.
  intros H. pose proof (retrieve_unsupported database w H) as R.
  repeat split.
  - rewrite R. destruct (fetch_pages database w) as [[df|e] w1]; eauto.
  - intros P. rewrite R. unfold fetch_pages, bind, lift. rewrite P. reflexivity.
  - intros df w1 F. rewrite R, F. reflexivity.
  - intros E. unfold get_data, bind, datetime_now, glob_esa_data. simpl. rewrite E. simpl.
    match goal with |- context [retrieve_discos_data database ?w0] => set (w0' := w0) end.
    pose proof (retrieve_unsupported database w0' H) as R'.
    destruct (retrieve_discos_data database w0') as [r w1] eqn:Q.
    assert (N : only_network w0' w1) by (eapply preserves_retrieve_discos_data; eauto).
    destruct N as (N & _).
    destruct (fetch_pages database w0') as [[df|e] w2]; inversion R'; subst;
      eexists; eexists; (split; [reflexivity|]); rewrite N; reflexivity.
Qed.

Lemma requests_get_eq u h p w :
  requests_get u h p w = (net w (net_calls w) (mkRequest u h p), after_get w (mkRequest u h p)).
Proof. reflexivity. Qed.


Lemma bind_lift_ok {A B} (r : result A) (a : A) (k : A -> M B) w :
  r = Ok a -> bind (lift r) k w = k a w.
Proof. intros ->. reflexivity. Qed.

Lemma first_event_is_get {A} u h p (k : response -> M A) w :
  (forall r, preserves only_network (k r)) ->
  exists evs,
    trace (snd (bind (requests_get u h p) k w)) = trace w ++ Get (mkRequest u h p) :: evs.
Proof.
  intros H. unfold bind. rewrite requests_get_eq.
  destruct (net w (net_calls w) _) as [r|e].
  - destruct (k r _) as [x w'] eqn:E. apply H in E.
    destruct E as (_ & _ & _ & _ & _ & evs & Ht & _).
    exists evs. simpl. rewrite Ht. simpl. rewrite <- app_assoc. reflexivity.
  - exists []. reflexivity.
Qed.



(** ** Frames built from records *)

Lemma mem_In k l : mem k l = true <-> In k l.
Proof.
  induction l as [|a l IH]; simpl.
  - split; [discriminate|contradiction].
  - rewrite orb_true_iff, IH, String.eqb_eq. split; intros [H|H]; auto.
Qed.

Lemma mem_false k l : mem k l = false <-> ~ In k l.
Proof.
  rewrite <- mem_In. destruct (mem k l); split; congruence.
Qed.

Lemma mem_app k l1 l2 : mem k (l1 ++ l2) = mem k l1 || mem k l2.
Proof.
  induction l1 as [|a l1 IH]; simpl; [reflexivity|].
  rewrite IH, orb_assoc. reflexivity.
Qed.

Lemma mem_filter k f l : mem k (filter f l) = mem k l && f k.
Proof.
  induction l as [|a l IH]; simpl; [reflexivity|].
  destruct (f a) eqn:Fa; simpl; rewrite IH.
  - destruct (String.eqb k a) eqn:E; simpl; [|reflexivity].
    apply String.eqb_eq in E. subst. rewrite Fa. reflexivity.
  - destruct (String.eqb k a) eqn:E; simpl; [|reflexivity].
    apply String.eqb_eq in E. subst. rewrite Fa. rewrite andb_false_r. reflexivity.
Qed.

Lemma filter_filter {A} (f g : A -> bool) l :
  filter f (filter g l) = filter (fun x => g x && f x) l.
Proof.
  induction l as [|a l IH]; simpl; [reflexivity|].
  destruct (g a); simpl; [destruct (f a)|]; rewrite IH; reflexivity.
Qed.

Lemma add_columns_nil r : add_columns [] r = keys r.
Proof.
  unfold add_columns. simpl.
  induction (keys r) as [|a l IHl]; simpl; [reflexivity|now rewrite IHl].
Qed.

(** Adding the keys of further records to the columns [c] found so far
    gives [c] followed by the columns those records would give on their
    own, less the ones [c] has. *)
Lemma fold_add_columns recs : forall c,
  fold_left add_columns recs c =
  c ++ filter (fun k => negb (mem k c)) (fold_left add_columns recs []).
Proof.
  induction recs as [|r recs IH]; intros c; simpl.
  - rewrite app_nil_r. reflexivity.
  - rewrite IH. rewrite (IH (add_columns [] r)). rewrite add_columns_nil.
    unfold add_columns at 1 2.
    rewrite filter_app, <- app_assoc. f_equal. f_equal.
    rewrite filter_filter.
    apply filter_ext. intros k.
    rewrite mem_app, mem_filter. destruct (mem k c); simpl.
    + rewrite andb_false_r. reflexivity.
    + rewrite andb_true_r, andb_true_r. reflexivity.
Qed.

Lemma add_columns_incl recs : forall c k, In k c -> In k (fold_left add_columns recs c).
Proof.
  induction recs as [|r recs IH]; intros c k H; simpl; [exact H|].
  apply IH. unfold add_columns. apply in_or_app. left. exact H.
Qed.

Lemma keys_in_columns recs : forall c r k,
  In r recs -> In k (keys r) -> In k (fold_left add_columns recs c).
Proof.
  induction recs as [|r0 recs IH]; intros c r k Hr Hk; simpl; [contradiction|].
  destruct Hr as [->|Hr].
  - apply add_columns_incl. unfold add_columns.
    destruct (mem k c) eqn:E.
    + apply in_or_app. left. apply mem_In. exact E.
    + apply in_or_app. right. apply filter_In. split; [exact Hk|]. rewrite E. reflexivity.
  - eapply IH; eauto.
Qed.

Lemma dict_get_None {A} k (d : list (string * A)) :
  ~ In k (keys d) -> dict_get k d = None.
Proof.
  induction d as [|[k' v] d IH]; simpl; intros H; [reflexivity|].
  destruct (String.eqb k k') eqn:E.
  - apply String.eqb_eq in E. subst. exfalso. apply H. left. reflexivity.
  - apply IH. intros I. apply H. right. exact I.
Qed.

Lemma index_of_Some_map {B} (f : string -> B) (d : B) c cols : forall i,
  index_of c cols = Some i -> nth i (map f cols) d = f c.
Proof.
  induction cols as [|a cols IH]; simpl; intros i H; [discriminate|].
  destruct (String.eqb c a) eqn:E.
  - apply String.eqb_eq in E. inversion H. subst. reflexivity.
  - destruct (index_of c cols) as [j|]; [|discriminate].
    inversion H. subst. simpl. apply IH. reflexivity.
Qed.

Lemma index_of_None c cols : index_of c cols = None -> ~ In c cols.
Proof.
  induction cols as [|a cols IH]; simpl; intros H; [tauto|].
  destruct (String.eqb c a) eqn:E; [discriminate|].
  apply String.eqb_neq in E.
  destruct (index_of c cols); [discriminate|].
  intros [->|I]; [congruence|]. apply IH; auto.
Qed.

Lemma cell_record_row old r c :
  (forall k, In k (keys r) -> In k old) ->
  cell old (record_row old r) c = get_or_nan r c.
Proof.
  intros H. unfold cell, record_row.
  destruct (index_of c old) as [i|] eqn:E.
  - apply index_of_Some_map. exact E.
  - unfold get_or_nan. rewrite dict_get_None; [reflexivity|].
    intros I. apply (index_of_None _ _ E). apply H. exact I.
Qed.

Lemma reindex_record_row old new r :
  (forall k, In k (keys r) -> In k old) ->
  reindex old new (record_row old r) = record_row new r.
Proof.
  intros H. unfold reindex. unfold record_row at 2.
  apply map_ext. intros c. apply cell_record_row. exact H.
Qed.

(** Appending the frames of two record sequences gives the frame of their
    concatenation. *)
Lemma frame_of_records_app (a b : list dict) :
  append (frame_of_records a) (frame_of_records b) = frame_of_records (a ++ b).
Proof.
  unfold append, frame_of_records. simpl.
  rewrite fold_left_app. rewrite (fold_add_columns b (fold_left add_columns a [])).
  f_equal. rewrite map_app, !map_map. f_equal.
  - apply map_ext_in. intros r Hr. apply reindex_record_row.
    intros k Hk. eapply keys_in_columns; eauto.
  - apply map_ext_in. intros r Hr. apply reindex_record_row.
    intros k Hk. eapply keys_in_columns; eauto.
Qed.

Lemma rows_frame_of_records recs :
  List.length (rows (frame_of_records recs)) = List.length recs.
Proof. unfold frame_of_records. simpl. apply length_map. Qed.

(** ** Page order *)

Lemma mapR_records (d : list dict) :
  mapR simple_json_normalize (map VDict d) = Ok (map normalise_json_ordered d).
Proof.
  induction d as [|r d IH]; simpl; [reflexivity|]. rewrite IH. reflexivity.
Qed.

Lemma json_normalize_records (d : list dict) :
  json_normalize (VList (map VDict d)) =
  Ok (frame_of_records (map normalise_json_ordered d)).
Proof. unfold json_normalize. rewrite mapR_records. reflexivity. Qed.

(** The loop appends the pages in the order it requests them. *)
Lemma pages_loop_served u h pages : forall params w ds w' recs,
  pages_served u h pages params w ds w' ->
  pages_loop u h pages params (frame_of_records recs) w =
  (Ok (frame_of_records (recs ++ map normalise_json_ordered (List.concat ds))), w').
Proof.
  induction pages as [|page pages IH]; intros params w ds w' recs S; inversion S; subst.
  - simpl. rewrite app_nil_r. reflexivity.
  - simpl pages_loop. unfold bind at 1.
    match goal with H : request_page _ _ _ _ = _ |- _ => rewrite H end.
    match goal with H : page_data _ = _ |- _ => rewrite (bind_lift_ok _ _ _ _ H) end.
    rewrite (bind_lift_ok _ _ _ _ (json_normalize_records d)).
    rewrite frame_of_records_app.
    erewrite IH by eassumption.
    simpl List.concat. rewrite map_app, app_assoc. reflexivity.
Qed.

(** C5.  A fetch whose first response is successful and announces three
    pages, and whose three pages hold 100, 100 and 50 records, succeeds
    with a frame of exactly 250 rows: the frame of the records of page 1,
    then those of page 2, then those of page 3, each page in the order
    the server sent it.  The pages 2 and 3 are the responses
    [request_page] goes on with. *)
Theorem three_pages_in_request_order
  (database : string) (params : dict) (w w2 w3 : World) (r1 r2 r3 : response)
  (d1 d2 d3 : list dict) :
  discos_params database = Ok params ->
  net w (net_calls w) (mkRequest (db_url database) discos_headers params) = Ok r1 ->
  ok r1 = true ->
  total_pages r1 = Ok (VInt 3) ->
  page_data r1 = Ok (VList (map VDict d1)) ->
  request_page (db_url database) discos_headers
    (dict_set "page[number]" (VInt 2) params)
    (after_get w (mkRequest (db_url database) discos_headers params)) = (Ok r2, w2) ->
  page_data r2 = Ok (VList (map VDict d2)) ->
  request_page (db_url database) discos_headers
    (dict_set "page[number]" (VInt 3) (dict_set "page[number]" (VInt 2) params))
    w2 = (Ok r3, w3) ->
  page_data r3 = Ok (VList (map VDict d3)) ->
  List.length d1 = 100%nat -> List.length d2 = 100%nat -> List.length d3 = 50%nat ->
  let recs := map normalise_json_ordered (d1 ++ d2 ++ d3) in
  let df := frame_of_records recs in
  fetch_pages database w = (Ok df, w3) /\
  List.length (rows df) = 250%nat /\
  rows df = map (record_row (columns df)) recs.
Proof.
  intros P N O T D1 R2 D2 R3 D3 L1 L2 L3 recs df. split; [|split].
  - unfold fetch_pages.
    rewrite (bind_lift_ok _ _ _ _ P).
    unfold bind at 1. rewrite requests_get_eq, N, O. change (negb true) with false. cbv iota.
    rewrite (bind_lift_ok _ _ _ _ D1), (bind_lift_ok _ _ _ _ (json_normalize_records d1)),
            (bind_lift_ok _ _ _ _ T).
    assert (R : page_range (VInt 3) = Ok [2; 3]) by reflexivity.
    rewrite (bind_lift_ok _ _ _ _ R).
    erewrite pages_loop_served.
    2:{ eapply served_cons; [exact R2|exact D2|].
        eapply served_cons; [exact R3|exact D3|]. apply served_nil. }
    unfold df, recs. simpl List.concat. rewrite app_nil_r, !map_app. reflexivity.
  - unfold df. rewrite rows_frame_of_records. unfold recs.
    rewrite length_map, !length_app. lia.
  - reflexivity.
Qed.

(** ** The cache scan *)

Lemma scan_files_ages filelist : forall m r w,
  forallb stamp_ok filelist = true ->
  scan_files filelist m r w =
  (Ok (pick (measured_ages (clock w) (clock_reads w) filelist) m r),
   tick (List.length (measured_ages (clock w) (clock_reads w) filelist)) w).
Proof.
  induction filelist as [|f filelist IH]; intros m r w H; simpl in *.
  - destruct w; reflexivity.
  - apply andb_true_iff in H. destruct H as [Hf H].
    unfold stamp_ok in Hf. unfold stamp in *.
    destruct (last_opt (findall_date f)) as [s|].
    + destruct (strptime s) as [d|e]; [|discriminate].
      unfold bind, lift, datetime_now. simpl.
      destruct (to_us (clock w (clock_reads w)) - to_us d <? m);
        rewrite IH by exact H; simpl; unfold tick; simpl;
        rewrite Nat.add_succ_r; reflexivity.
    + apply IH. exact H.
Qed.

Lemma scan_files_skips filelist : forall m r w,
  scan_files filelist m r w = scan_files (filter has_stamp filelist) m r w.
Proof.
  induction filelist as [|f filelist IH]; intros m r w; simpl; [reflexivity|].
  unfold has_stamp, stamp.
  destruct (last_opt (findall_date f)) as [s|] eqn:E; simpl.
  - rewrite E. unfold bind. destruct (lift (strptime s) w) as [[d|e] w1]; [|reflexivity].
    destruct (datetime_now w1) as [[t|e] w2]; [|reflexivity].
    destruct (_ <? m); apply IH.
  - apply IH.
Qed.

Lemma pick_spec ages : forall m r m' r',
  pick ages m r = (m', r') ->
  m' <= m /\
  (forall f a, In (f, a) ages -> m' <= a) /\
  (m' < m -> exists f, r' = Some f /\ In (f, m') ages) /\
  (m' = m -> r' = r).
Proof.
  induction ages as [|[f a] ages IH]; intros m r m' r' H; simpl in H.
  - inversion H; subst. split; [lia|]. split; [intros ? ? []|]. split; [lia|auto].
  - destruct (a <? m) eqn:E.
    + apply Z.ltb_lt in E. apply IH in H. destruct H as (H1 & H2 & H3 & H4).
      split; [lia|]. split; [|split].
      * intros f' a' [I|I]; [inversion I; subst; lia|eauto].
      * intros _. destruct (Z.eq_dec m' a) as [->|Ne].
        -- exists f. split; [|left; reflexivity]. rewrite H4; auto.
        -- destruct H3 as [g [G1 G2]]; [lia|]. exists g. split; [exact G1|right; exact G2].
      * intros ->. lia.
    + apply Z.ltb_ge in E. apply IH in H. destruct H as (H1 & H2 & H3 & H4).
      split; [lia|]. split; [|split].
      * intros f' a' [I|I]; [inversion I; subst; lia|eauto].
      * intros L. destruct (H3 L) as [g [G1 G2]]. exists g. split; [exact G1|right; exact G2].
      * exact H4.
Qed.

Lemma measured_ages_In clock filelist : forall k f a,
  In (f, a) (measured_ages clock k filelist) -> In f filelist.
Proof.
  induction filelist as [|f0 filelist IH]; intros k f a H; simpl in H; [contradiction|].
  destruct (stamp f0) as [s|]; [|right; eauto].
  destruct (strptime s) as [d|e]; [|contradiction].
  destruct H as [H|H]; [inversion H; left; reflexivity|right; eauto].
Qed.

Lemma find_file_candidate database files f :
  In f (candidates database files) -> exists content, find_file f files = Some content.
Proof.
  unfold candidates. intros H. apply in_map_iff in H. destruct H as (name & <- & H).
  apply filter_In in H. destruct H as [H _].
  induction files as [|[n c] files IH]; [contradiction|].
  cbn [find_file]. cbn [keys map fst In] in H. fold (keys files) in H.
  destruct (String.eqb (path_of name) (path_of n)) eqn:Q; [eauto|].
  destruct H as [H|H]; [|auto].
  subst. rewrite String.eqb_refl in Q. discriminate.
Qed.

Lemma pick_all_old ages : forall m r,
  (forall f a, In (f, a) ages -> m <= a) -> pick ages m r = (m, r).
Proof.
  induction ages as [|[f a] ages IH]; intros m r H; simpl; [reflexivity|].
  assert (E : (a <? m) = false) by (apply Z.ltb_ge; apply (H f); left; reflexivity).
  rewrite E. apply IH. intros; eapply H; right; eauto.
Qed.

Lemma tick_tick n m w : tick n (tick m w) = tick (n + m) w.
Proof. unfold tick; simpl. rewrite Nat.add_assoc. reflexivity. Qed.

Lemma get_data_run (database : string) (w : World) (files : list (string * string)) :
  esa_data w = Some files ->
  get_data database w =
    match candidates database files with
    | [] => fetch_and_store database (tick 1 w)
    | filelist => resolve database filelist (tick 1 w)
    end.
Proof.
  intros E. unfold get_data. unfold bind at 1. unfold datetime_now.
  unfold bind at 1. unfold glob_esa_data. simpl esa_data. rewrite E.
  fold (candidates database files). rewrite <- E.
  destruct (candidates database files) as [|c cs]; [reflexivity|].
  unfold resolve, bind. unfold tick. simpl Nat.add.
  destruct (scan_files _ _ _ _) as [[[m r]|e] w1]; reflexivity.
Qed.

(** A hit: some candidate is younger than [max_age_days]. *)
Lemma get_data_hit (database : string) (w : World) (files : list (string * string)) :
  esa_data w = Some files ->
  forallb stamp_ok (candidates database files) = true ->
  let ages := measured_ages (clock w) (S (clock_reads w)) (candidates database files) in
  (exists f a, In (f, a) ages /\ a < timedelta_days max_age_days) ->
  exists f a content,
    In (f, a) ages /\ a < timedelta_days max_age_days /\
    (forall f' a', In (f', a') ages -> a <= a') /\
    find_file f files = Some content /\
    get_data database w =
      (read_result content, log (ReadFile f) (tick (S (List.length ages)) w)).
Proof.
  intros E V. rewrite (get_data_run _ _ _ E).
  pose proof (find_file_candidate database files) as C0.
  revert V C0. generalize (candidates database files). intros fl V C0 ages (f0 & a0 & I0 & L0).
  destruct (pick ages (timedelta_days max_age_days) None) as [m r] eqn:P.
  destruct (pick_spec _ _ _ _ _ P) as (P1 & P2 & P3 & _).
  assert (Lm : m < timedelta_days max_age_days) by (specialize (P2 _ _ I0); lia).
  destruct (P3 Lm) as (f & -> & If).
  destruct (C0 f) as [content C].
  { eapply measured_ages_In; eauto. }
  exists f, m, content. repeat split; auto.
  assert (R : resolve database fl (tick 1 w) =
              (read_result content, log (ReadFile f) (tick (S (List.length ages)) w))).
  { unfold resolve. unfold bind at 1. rewrite scan_files_ages by exact V.
    change (clock (tick 1 w)) with (clock w).
    change (clock_reads (tick 1 w)) with (S (clock_reads w)).
    fold ages. rewrite P. cbn [fst snd].
    apply Z.ltb_lt in Lm. rewrite Lm. rewrite tick_tick.
    unfold read_data, read_result. simpl esa_data. rewrite E, C.
    rewrite Nat.add_1_r. destruct (read_csv content); reflexivity. }
  destruct fl; [contradiction I0|exact R].
Qed.

(** A miss: no candidate, or none younger than [max_age_days]. *)
Lemma get_data_miss (database : string) (w : World) (files : list (string * string)) :
  esa_data w = Some files ->
  forallb stamp_ok (candidates database files) = true ->
  let ages := measured_ages (clock w) (S (clock_reads w)) (candidates database files) in
  (forall f a, In (f, a) ages -> timedelta_days max_age_days <= a) ->
  get_data database w = fetch_and_store database (tick (S (List.length ages)) w).
Proof.
  intros E V. rewrite (get_data_run _ _ _ E).
  revert V. generalize (candidates database files). intros fl V ages Old.
  assert (R : resolve database fl (tick 1 w) =
              fetch_and_store database (tick (S (List.length ages)) w)).
  { unfold resolve. unfold bind at 1. rewrite scan_files_ages by exact V.
    change (clock (tick 1 w)) with (clock w).
    change (clock_reads (tick 1 w)) with (S (clock_reads w)).
    fold ages. rewrite pick_all_old by exact Old. cbn [fst].
    rewrite Z.ltb_irrefl. rewrite tick_tick. rewrite Nat.add_1_r. reflexivity. }
  destruct fl; [reflexivity|exact R].
Qed.

(** ** Date stamps written and read back *)

Lemma digit_char_code n :
  nat_of_ascii (digit_char n) = (48 + Z.to_nat (n mod 10))%nat.
Proof.
  unfold digit_char. apply nat_ascii_embedding.
  assert (0 <= n mod 10 < 10) by (apply Z.mod_pos_bound; lia). lia.
Qed.

Lemma is_digit_digit_char n : is_digit (digit_char n) = true.
Proof.
  unfold is_digit. rewrite digit_char_code.
  assert (0 <= n mod 10 < 10) by (apply Z.mod_pos_bound; lia).
  apply andb_true_iff. split; apply Nat.leb_le; lia.
Qed.

Lemma digit_val_digit_char n : digit_val (digit_char n) = n mod 10.
Proof.
  unfold digit_val. rewrite digit_char_code.
  assert (0 <= n mod 10 < 10) by (apply Z.mod_pos_bound; lia). lia.
Qed.

Lemma num2_pad n : 0 <= n < 100 -> num2 (digit_char (n / 10)) (digit_char n) = n.
Proof.
  intros H. unfold num2. rewrite !digit_val_digit_char.
  Z.div_mod_to_equations. lia.
Qed.

Lemma date_at_strftime t post :
  date_at (strftime t +++ post) = Some (strftime t).
Proof.
  unfold strftime, pad4, pad2. simpl String.append. unfold date_at.
  rewrite !is_digit_digit_char. reflexivity.
Qed.

Lemma days_in_month_bound y m : 28 <= days_in_month y m <= 31.
Proof.
  unfold days_in_month.
  destruct (Z.eqb m 2); [destruct (is_leap y); lia|].
  destruct (_ || _); lia.
Qed.

Lemma strptime_strftime t :
  valid_datetime t = true ->
  strptime (strftime t) = Ok (mkDatetime (year t) (month t) (day t) 0).
Proof.
  intros V. unfold valid_datetime in V.
  apply andb_true_iff in V. destruct V as [V _].
  apply andb_true_iff in V. destruct V as [V _].
  pose proof V as V'. unfold valid_date in V'.
  repeat (apply andb_true_iff in V'; destruct V' as [V' ?]).
  repeat match goal with H : (_ <=? _) = true |- _ => apply Z.leb_le in H end.
  apply Z.leb_le in V'.
  pose proof (days_in_month_bound (year t) (month t)) as B.
  unfold strptime.
  pose proof (date_at_strftime t "") as D.
  assert (A : strftime t +++ "" = strftime t).
  { unfold strftime, pad4, pad2. reflexivity. }
  rewrite A in D. rewrite D.
  unfold strftime, pad4, pad2. simpl String.append. cbn [String.length Nat.eqb andb].
  assert (Y : 100 * num2 (digit_char (year t / 1000)) (digit_char (year t / 100)) +
              num2 (digit_char (year t / 10)) (digit_char (year t)) = year t).
  { unfold num2. rewrite !digit_val_digit_char.
    Z.div_mod_to_equations. lia. }
  rewrite Y, !num2_pad by lia.
  rewrite V. reflexivity.
Qed.

Lemma append_assoc (a b c : string) : (a +++ b) +++ c = a +++ b +++ c.
Proof. induction a as [|x a IH]; simpl; [reflexivity|now rewrite IH]. Qed.

Lemma no_digits_append a b : no_digits (a +++ b) = no_digits a && no_digits b.
Proof.
  induction a as [|x a IH]; simpl; [reflexivity|]. rewrite IH, andb_assoc. reflexivity.
Qed.

Lemma date_at_nondigit c s : is_digit c = false -> date_at (String c s) = None.
Proof.
  intros H. unfold date_at.
  destruct s as [|b [|c0 [|d [|e [|f [|g [|h [|i [|j s]]]]]]]]]; try reflexivity.
  rewrite H. reflexivity.
Qed.

Lemma findall_prefix pre s :
  no_digits pre = true -> findall_from (pre +++ s) 0 = findall_from s 0.
Proof.
  induction pre as [|c pre IH]; simpl; intros H; [reflexivity|].
  apply andb_true_iff in H. destruct H as [Hc H].
  apply negb_true_iff in Hc.
  change (match pre +++ s with
          | String b _ => _ | _ => _ end) with (date_at (String c (pre +++ s))).
  rewrite (date_at_nondigit _ _ Hc). apply IH. exact H.
Qed.

Lemma findall_strftime t :
  findall_from (strftime t +++ ".csv") 0 = [strftime t].
Proof.
  pose proof (date_at_strftime t ".csv") as D.
  unfold strftime, pad4, pad2 in *. simpl String.append in *.
  cbn [findall_from]. rewrite D. reflexivity.
Qed.

(** The stamp of the file [write_data] writes is the date it was given. *)
Lemma stamp_of_written database t :
  no_digits database = true ->
  stamp (path_of (database +++ "_" +++ strftime t +++ ".csv")) = Some (strftime t).
Proof.
  intros H. unfold stamp, findall_date, path_of.
  rewrite <- !append_assoc. rewrite (append_assoc _ (strftime t) ".csv").
  rewrite findall_prefix.
  - rewrite findall_strftime. reflexivity.
  - rewrite !no_digits_append, H. reflexivity.
Qed.

Lemma supported_no_digits database : supported database = true -> no_digits database = true.
Proof.
  unfold supported. simpl.
  repeat (destruct (String.eqb database _) eqn:E;
          [apply String.eqb_eq in E; subst; reflexivity|clear E]).
  discriminate.
Qed.

Lemma prefix_append p s : String.prefix p (p +++ s) = true.
Proof.
  induction p as [|a p IH]; simpl; [destruct s; reflexivity|].
  destruct (ascii_dec a a); [exact IH|congruence].
Qed.

Lemma dict_set_fresh {A} k (v : A) d : ~ In k (keys d) -> dict_set k v d = d ++ [(k, v)].
Proof.
  induction d as [|[k' v'] d IH]; simpl; intros H; [reflexivity|].
  destruct (String.eqb k k') eqn:E.
  - apply String.eqb_eq in E. subst. exfalso. apply H. left. reflexivity.
  - rewrite IH; [reflexivity|]. intros I. apply H. right. exact I.
Qed.

(** ** A miss writes one new file *)

Lemma measured_age_of_candidate clock filelist : forall k f s d,
  forallb stamp_ok filelist = true ->
  In f filelist -> stamp f = Some s -> strptime s = Ok d ->
  exists i, (k <= i < k + List.length (measured_ages clock k filelist))%nat /\
            In (f, to_us (clock i) - to_us d) (measured_ages clock k filelist).
Proof.
  induction filelist as [|f0 filelist IH]; intros k f s d V I St P; [contradiction|].
  simpl in V. apply andb_true_iff in V. destruct V as [V0 V].
  simpl measured_ages. unfold stamp_ok in V0.
  destruct I as [->|I].
  - rewrite St, P. exists k. simpl. split; [lia|left; reflexivity].
  - destruct (stamp f0) as [s0|].
    + destruct (strptime s0) as [d0|e0]; [|discriminate].
      destruct (IH (S k) f s d V I St P) as (i & Hi & Ii).
      exists i. simpl. split; [lia|right; exact Ii].
    + eapply IH; eassumption.
Qed.

Lemma to_us_midnight t :
  to_us t - to_us (mkDatetime (year t) (month t) (day t) 0) = usec t.
Proof. unfold to_us. simpl. lia. Qed.

Lemma retrieve_first_event database w :
  supported database = true ->
  exists req evs,
    trace (snd (retrieve_discos_data database w)) = trace w ++ Get req :: evs.
Proof.
  intros H. destruct (supported_params _ H) as [params P].
  assert (F : exists evs, trace (snd (fetch_pages database w)) =
                          trace w ++ Get (mkRequest (db_url database) discos_headers params) :: evs).
  { unfold fetch_pages. rewrite (bind_lift_ok _ _ _ _ P).
    apply first_event_is_get. intros r. destruct (negb (ok r)); effects. }
  destruct F as [evs F]. exists (mkRequest (db_url database) discos_headers params), evs.
  unfold retrieve_discos_data, bind, lift.
  destruct (fetch_pages database w) as [[df|e] w1]; exact F.
Qed.

(** C4.  For a supported database whose cache directory holds no
    candidate, or only candidates whose stamp names a date at least
    [max_age_days] old (names without a stamp are passed over),
    [get_data] makes at least one request.  When it succeeds it has
    written exactly one file, named after the database and the date the
    clock shows at the time of writing; that name was not in the
    directory before, so every earlier file is still there with its
    contents.  The clock is taken to show valid dates and never to run
    backwards. *)
Theorem stale_cache_is_refetched
  (database : string) (w : World) (files : list (string * string)) :
  supported database = true ->
  esa_data w = Some files ->
  (forall k, valid_datetime (clock w k) = true) ->
  (forall i j, (i <= j)%nat -> to_us (clock w i) <= to_us (clock w j)) ->
  forallb stamp_ok (candidates database files) = true ->
  let ages := measured_ages (clock w) (S (clock_reads w)) (candidates database files) in
  (forall f a, In (f, a) ages -> timedelta_days max_age_days <= a) ->
  let out := get_data database w in
  (exists req evs, trace (snd out) = trace w ++ Get req :: evs) /\
  (forall df, fst out = Ok df ->
     let today := strftime (clock w (S (List.length ages) + clock_reads w)) in
     let name := database +++ "_" +++ today +++ ".csv" in
     ~ In name (keys files) /\
     esa_data (snd out) = Some (files ++ [(name, to_csv df)]) /\
     exists evs, Forall net_event evs /\
                 trace (snd out) = trace w ++ evs ++ [WriteFile (path_of name)]).
Proof.
  intros Sup E Val Mono V ages Old out.
  assert (O : out = fetch_and_store database (tick (S (List.length ages)) w)).
  { unfold out. apply get_data_miss; assumption. }
  set (w1 := tick (S (List.length ages)) w) in *.
  destruct (retrieve_first_event database w1 Sup) as (req & evs & Tr).
  destruct (retrieve_discos_data database w1) as [r w2] eqn:R.
  pose proof (preserves_retrieve_discos_data database w1 r w2 R) as N.
  destruct N as (N1 & N2 & N3 & N4 & N5 & evs' & N6 & N7).
  simpl snd in Tr.
  assert (Fresh : ~ In (database +++ "_" +++
                        strftime (clock w (S (List.length ages) + clock_reads w)) +++ ".csv")
                       (keys files)).
  { set (t := clock w (S (List.length ages) + clock_reads w)).
    intros I.
    assert (C : In (path_of (database +++ "_" +++ strftime t +++ ".csv"))
                   (candidates database files)).
    { unfold candidates. apply in_map. apply filter_In. split; [exact I|].
      rewrite <- append_assoc. apply prefix_append. }
    pose proof (stamp_of_written database t (supported_no_digits _ Sup)) as St.
    pose proof (strptime_strftime t (Val _)) as Sp.
    destruct (measured_age_of_candidate (clock w) _ (S (clock_reads w)) _ _ _ V C St Sp)
      as (i & Hi & Ii).
    fold ages in Hi, Ii. apply Old in Ii.
    assert (M : to_us (clock w i) <= to_us t) by (apply Mono; lia).
    pose proof (to_us_midnight t) as Mid.
    pose proof (Val (S (List.length ages) + clock_reads w)%nat) as Vt. fold t in Vt.
    unfold valid_datetime in Vt. apply andb_true_iff in Vt. destruct Vt as [Vt U2].
    apply andb_true_iff in Vt. destruct Vt as [_ U1].
    apply Z.leb_le in U1. apply Z.ltb_lt in U2.
    unfold timedelta_days, max_age_days, day_us in *. lia. }
  split.
  - rewrite O. unfold fetch_and_store. unfold bind at 1. rewrite R.
    exists req. destruct r as [df|e].
    + unfold bind, write_data, bind, datetime_now, to_csv_file, ret. simpl.
      rewrite N1. unfold w1, tick. simpl. rewrite E. simpl.
      exists (evs ++ [WriteFile (path_of (database +++ "_" +++
                strftime (clock w2 (clock_reads w2)) +++ ".csv"))]).
      rewrite Tr. unfold w1, tick. simpl. rewrite <- app_assoc. reflexivity.
    + exists evs. simpl. rewrite Tr. reflexivity.
  - intros df Hdf today name. rewrite O in Hdf |- *.
    unfold fetch_and_store in *. unfold bind at 1 in Hdf. unfold bind at 1. unfold bind at 2.
    rewrite R in *. destruct r as [df'|e]; [|discriminate Hdf].
    assert (W : write_data df' database w2 =
                (Ok tt, mkWorld (Some (files ++ [(name, to_csv df')])) (clock w2)
                                (S (clock_reads w2)) (net w2) (net_calls w2)
                                (trace w2 ++ [WriteFile (path_of name)]))).
    { unfold write_data, bind, datetime_now, to_csv_file. simpl.
      rewrite N1, N2, N3. unfold w1, tick. simpl. rewrite E.
      fold today. fold name. rewrite dict_set_fresh by exact Fresh. reflexivity. }
    unfold bind in Hdf. rewrite W in Hdf. unfold ret in Hdf. simpl in Hdf.
    inversion Hdf; subst df'.
    unfold bind. rewrite W. unfold ret. simpl.
    split; [exact Fresh|]. split; [reflexivity|].
    exists evs'. split; [exact N7|]. rewrite N6. unfold w1, tick. simpl.
    rewrite <- app_assoc. reflexivity.
Qed.

(** ** Hits, and what the scan does not look at *)

(** C3, amended.  When every date-shaped stamp among the candidates names a
    date of the calendar and some candidate is younger than
    [max_age_days], [get_data] reads the candidate of the smallest
    measured age and returns what [read_csv] makes of its contents (the
    read error, when the file cannot be read).  It makes no request, runs
    no clean-up and writes nothing: the only effect is that one read. *)
Theorem fresh_cache_is_read
  (database : string) (w : World) (files : list (string * string)) :
  esa_data w = Some files ->
  forallb stamp_ok (candidates database files) = true ->
  let ages := measured_ages (clock w) (S (clock_reads w)) (candidates database files) in
  (exists f a, In (f, a) ages /\ a < timedelta_days max_age_days) ->
  let out := get_data database w in
  exists f a content,
    In (f, a) ages /\ a < timedelta_days max_age_days /\
    (forall f' a', In (f', a') ages -> a <= a') /\
    find_file f files = Some content /\
    fst out = read_result content /\
    esa_data (snd out) = Some files /\
    net_calls (snd out) = net_calls w /\
    trace (snd out) = trace w ++ [ReadFile f].
Proof.
  intros E V ages F out.
  destruct (get_data_hit database w files E V F) as (f & a & content & I & L & Min & C & G).
  exists f, a, content. unfold out. rewrite G. simpl.
  repeat split; auto.
Qed.

(** C9, amended.  The scan passes over every candidate whose name holds no
    date-shaped stamp; when no candidate holds one, [get_data] fetches.
    The contents of the files play no part in the choice.  Only the
    chosen file is read, and when that read fails the error leaves
    [get_data]: no request is made and nothing is written. *)
Theorem unreadable_choice_aborts
  (database : string) (w : World) (files : list (string * string)) :
  esa_data w = Some files ->
  forallb stamp_ok (candidates database files) = true ->
  let ages := measured_ages (clock w) (S (clock_reads w)) (candidates database files) in
  (exists f a, In (f, a) ages /\ a < timedelta_days max_age_days) ->
  let out := get_data database w in
  (forall filelist m r w0,
      scan_files filelist m r w0 = scan_files (filter has_stamp filelist) m r w0) /\
  (forall w0 files0,
      esa_data w0 = Some files0 ->
      forallb (fun f => negb (has_stamp f)) (candidates database files0) = true ->
      get_data database w0 = fetch_and_store database (tick 1 w0)) /\
  exists f a content,
    In (f, a) ages /\ (forall f' a', In (f', a') ages -> a <= a') /\
    find_file f files = Some content /\
    (read_csv content = None ->
       fst out = Raise ParserError /\
       net_calls (snd out) = net_calls w /\
       esa_data (snd out) = Some files /\
       trace (snd out) = trace w ++ [ReadFile f]).
Proof.
  intros E V ages F out. split; [|split].
  - intros. apply scan_files_skips.
  - intros w0 files0 E0 U.
    assert (V0 : forallb stamp_ok (candidates database files0) = true).
    { revert U. generalize (candidates database files0). intros l.
      induction l as [|x l IH]; simpl; [reflexivity|]. intros H.
      apply andb_true_iff in H. destruct H as [Hx H]. rewrite (IH H), andb_true_r.
      unfold has_stamp in Hx. unfold stamp_ok. destruct (stamp x); [discriminate|reflexivity]. }
    assert (A0 : forall k, measured_ages (clock w0) k (candidates database files0) = []).
    { revert U. generalize (candidates database files0). intros l.
      induction l as [|x l IH]; simpl; [reflexivity|]. intros H k.
      apply andb_true_iff in H. destruct H as [Hx H].
      unfold has_stamp in Hx. destruct (stamp x); [discriminate|]. apply IH. exact H. }
    rewrite (get_data_miss database w0 files0 E0 V0).
    + rewrite A0. reflexivity.
    + rewrite A0. intros ? ? [].
  - destruct (get_data_hit database w files E V F) as (f & a & content & I & L & Min & C & G).
    exists f, a, content. unfold out. rewrite G. unfold read_result. simpl.
    split; [exact I|]. split; [exact Min|]. split; [exact C|].
    intros R. rewrite R. repeat split; try reflexivity. exact E.
Qed.

(** ** Flattening of nested records *)

Lemma dict_get_set {A} K k (v : A) d :
  dict_get K (dict_set k v d) = if String.eqb K k then Some v else dict_get K d.
Proof.
  induction d as [|[k' v'] d IH]; simpl.
  - reflexivity.
  - destruct (String.eqb k k') eqn:E; simpl.
    + apply String.eqb_eq in E. subst k'. destruct (String.eqb K k); reflexivity.
    + rewrite IH. destruct (String.eqb K k') eqn:E1; [|reflexivity].
      apply String.eqb_eq in E1. subst K.
      rewrite String.eqb_sym, E. reflexivity.
Qed.

Lemma dict_get_In {A} k (x : A) d : dict_get k d = Some x -> In (k, x) d.
Proof.
  induction d as [|[k' v'] d IH]; simpl; [discriminate|].
  destruct (String.eqb k k') eqn:E.
  - apply String.eqb_eq in E. intros H. inversion H. subst. left. reflexivity.
  - intros H. right. auto.
Qed.

Lemma In_keys {A} k (x : A) d : In (k, x) d -> In k (keys d).
Proof. intros H. unfold keys. apply in_map_iff. exists (k, x). auto. Qed.

Lemma nodup_keys_get {A} k (x : A) d :
  nodup_keys (keys d) = true -> In (k, x) d -> dict_get k d = Some x.
Proof.
  induction d as [|[k' v'] d IH]; simpl; [contradiction|].
  intros N H. apply andb_true_iff in N. destruct N as [N1 N2].
  destruct H as [H|H].
  - inversion H. subst. rewrite String.eqb_refl. reflexivity.
  - destruct (String.eqb k k') eqn:E; [|auto].
    apply String.eqb_eq in E. subst k'.
    apply negb_true_iff in N1. apply mem_false in N1.
    exfalso. apply N1. eapply In_keys. exact H.
Qed.

(** Looking a key up after a run of assignments: the last assignment to
    the key decides, the dictionary before them otherwise. *)
Lemma dict_get_update K (d2 : dict) : forall d1 : dict,
  dict_get K (dict_update d1 d2) =
  match dict_get K (rev d2) with
  | Some x => Some x
  | None => dict_get K d1
  end.
Proof.
  unfold dict_update.
  induction d2 as [|[k v] d2 IH]; intros d1; simpl; [reflexivity|].
  rewrite IH. rewrite dict_get_set.
  assert (R : forall l : dict, dict_get K (l ++ [(k, v)]) =
              match dict_get K l with
              | Some x => Some x
              | None => if String.eqb K k then Some v else None
              end).
  { induction l as [|[k' v'] l IHl]; simpl; [reflexivity|].
    destruct (String.eqb K k'); [reflexivity|apply IHl]. }
  rewrite R. destruct (dict_get K (rev d2)); [reflexivity|].
  destruct (String.eqb K k); reflexivity.
Qed.

Lemma dict_get_update_In K x (d1 d2 : dict) :
  In (K, x) d2 -> (forall y, In (K, y) d2 -> y = x) ->
  dict_get K (dict_update d1 d2) = Some x.
Proof.
  intros I F. rewrite dict_get_update.
  destruct (dict_get K (rev d2)) as [y|] eqn:E.
  - apply dict_get_In in E. apply in_rev in E. rewrite (F y E). reflexivity.
  - exfalso. apply in_rev in I.
    assert (N : ~ In K (keys (rev d2))).
    { intros H. clear I F. revert E H. generalize (rev d2). intros l.
      induction l as [|[k' v'] l IH]; simpl; [tauto|].
      destruct (String.eqb K k') eqn:Q; [discriminate|].
      apply String.eqb_neq in Q. intros E [H|H]; [congruence|auto]. }
    apply N. eapply In_keys. exact I.
Qed.

Lemma dict_get_update_notin K (d1 d2 : dict) :
  ~ In K (keys d2) -> dict_get K (dict_update d1 d2) = dict_get K d1.
Proof.
  intros N. rewrite dict_get_update. rewrite dict_get_None; [reflexivity|].
  intros H. apply N. unfold keys in *. rewrite map_rev in H. apply in_rev in H. exact H.
Qed.

Lemma In_dict_set {A} K (y : A) k v d :
  In (K, y) (dict_set k v d) -> (K, y) = (k, v) \/ In (K, y) d.
Proof.
  induction d as [|[k' v'] d IH]; simpl.
  - intros [H|[]]. left. congruence.
  - destruct (String.eqb k k').
    + intros [H|H]; [left; congruence|right; right; exact H].
    + intros [H|H]; [right; left; exact H|].
      destruct (IH H) as [Q|Q]; [left; exact Q|right; right; exact Q].
Qed.

Lemma In_dict_update K y (d2 : dict) : forall d1 : dict,
  In (K, y) (dict_update d1 d2) -> In (K, y) d1 \/ In (K, y) d2.
Proof.
  unfold dict_update.
  induction d2 as [|[k v] d2 IH]; intros d1; simpl; [auto|].
  intros H. destruct (IH _ H) as [Q|Q]; [|right; right; exact Q].
  destruct (In_dict_set _ _ _ _ _ Q) as [R|R]; [right; left; congruence|left; exact R].
Qed.

(** Induction on Python values that reaches into lists and dictionaries. *)
Lemma pyval_nested_ind (P : pyval -> Prop) :
  P VNone -> P VNaN -> (forall b, P (VBool b)) -> (forall n, P (VInt n)) ->
  (forall x, P (VFloat x)) -> (forall s, P (VStr s)) ->
  (forall l, Forall P l -> P (VList l)) ->
  (forall d, Forall (fun kv => P (snd kv)) d -> P (VDict d)) ->
  (forall t, P (VTime t)) ->
  forall v, P v.
Proof.
  intros HNone HNaN HBool HInt HFloat HStr HList HDict HTime.
  fix IH 1. intros [| |b|n|x|s|l|d|t];
    [exact HNone|exact HNaN|apply HBool|apply HInt|apply HFloat|apply HStr| | |apply HTime].
  - apply HList. induction l as [|a l IHl]; constructor; [apply IH|exact IHl].
  - apply HDict. induction d as [|[k a] d IHd]; constructor; [apply IH|exact IHd].
Qed.

Lemma leaves_dict (d : dict) ks :
  leaves (VDict d) ks = flat_map (fun kv => leaves (snd kv) (new_key ks (fst kv))) d.
Proof.
  simpl. induction d as [|[k x] d IH]; [reflexivity|]. rewrite IH. reflexivity.
Qed.

Lemma leaves_leaf v ks : is_dict v = false -> leaves v ks = [(ks, v)].
Proof. destruct v; simpl; intros H; try reflexivity. discriminate. Qed.

Lemma dict_update_app (d1 a b : dict) :
  dict_update d1 (a ++ b) = dict_update (dict_update d1 a) b.
Proof. unfold dict_update. apply fold_left_app. Qed.

(** [_normalise_json] performs the assignments of [leaves] on its
    accumulator. *)
Lemma normalise_json_leaves v : forall ks acc,
  normalise_json v ks acc = dict_update acc (leaves v ks).
Proof.
  induction v using pyval_nested_ind; intros ks acc; try reflexivity.
  rename H into F. rewrite leaves_dict. simpl normalise_json.
  revert acc. induction d as [|[k x] d IHd]; intros acc; [reflexivity|].
  inversion F as [|? ? Fx Fd]; subst. simpl in Fx.
  simpl flat_map. rewrite dict_update_app, <- Fx. apply IHd. exact Fd.
Qed.

Lemma wf_record_dict d :
  wf_record (VDict d) = true ->
  nodup_keys (keys d) = true /\
  Forall (fun kv => key_ok (fst kv) = true /\ wf_record (snd kv) = true) d.
Proof.
  simpl. intros H. apply andb_true_iff in H. destruct H as [N H]. split; [exact N|].
  clear N. induction d as [|[k x] d IH]; constructor.
  - apply andb_true_iff in H. destruct H as [H _].
    apply andb_true_iff in H. exact H.
  - apply IH. apply andb_true_iff in H. tauto.
Qed.

(** Every assignment comes from a leaf of the record, under the key built
    along its path. *)
Lemma leaves_sound v : forall ks K leaf,
  wf_record v = true ->
  In (K, leaf) (leaves v ks) ->
  exists p, K = fold_left new_key p ks /\ on_path p v leaf /\ is_dict leaf = false.
Proof.
  induction v using pyval_nested_ind; intros ks K leaf W I;
    try (simpl in I; destruct I as [I|[]]; inversion I; subst; exists []; simpl; auto).
  rename H into F.
  destruct (wf_record_dict _ W) as [_ Wd].
  rewrite leaves_dict in I. apply in_flat_map in I. destruct I as ([k y] & Iky & I).
  simpl in I.
  rewrite Forall_forall in F, Wd.
  destruct (Wd _ Iky) as [Kok Wy]. simpl in Kok, Wy.
  destruct (F _ Iky _ _ _ Wy I) as (p & -> & Pth & L).
  exists (k :: p). simpl. split; [reflexivity|]. split; [|exact L].
  exists d, y. auto.
Qed.

Lemma on_path_get p : forall v x,
  wf_record v = true -> on_path p v x -> get_path p v = Some x /\ wf_record x = true.
Proof.
  induction p as [|k p IH]; intros v x W H; simpl in *.
  - subst. auto.
  - destruct H as (d & y & -> & I & _ & H).
    destruct (wf_record_dict _ W) as [N Wd].
    rewrite (nodup_keys_get _ _ _ N I).
    rewrite Forall_forall in Wd. destruct (Wd _ I) as [_ Wy]. apply IH; auto.
Qed.

Lemma on_path_keys p : forall v x, on_path p v x -> Forall (fun k => key_ok k = true) p.
Proof.
  induction p as [|k p IH]; intros v x H; simpl in *; constructor.
  - destruct H as (d & y & _ & _ & Kok & _). exact Kok.
  - destruct H as (d & y & _ & _ & _ & H). eapply IH; eauto.
Qed.

Lemma get_on_path p : forall v x,
  wf_record v = true -> get_path p v = Some x -> on_path p v x.
Proof.
  induction p as [|k p IH]; intros v x W H; simpl in *.
  - congruence.
  - destruct v; try discriminate.
    destruct (dict_get k d) as [y|] eqn:G; [|discriminate].
    apply dict_get_In in G.
    destruct (wf_record_dict _ W) as [N Wd].
    rewrite Forall_forall in Wd. destruct (Wd _ G) as [Kok Wy]. simpl in *.
    exists d, y. repeat split; auto.
Qed.

(** Every leaf of the record is assigned under the key built along its
    path. *)
Lemma leaves_complete p : forall v ks x,
  get_path p v = Some x -> is_dict x = false ->
  In (fold_left new_key p ks, x) (leaves v ks).
Proof.
  induction p as [|k p IH]; intros v ks x H L; simpl in *.
  - inversion H; subst. rewrite leaves_leaf by exact L. left. reflexivity.
  - destruct v; try discriminate.
    destruct (dict_get k d) as [y|] eqn:G; [|discriminate].
    apply dict_get_In in G. rewrite leaves_dict. apply in_flat_map.
    exists (k, y). split; [exact G|]. simpl. apply IH; auto.
Qed.

(** ** Dotted keys name one path *)

Lemma append_nil_r s : s +++ "" = s.
Proof. induction s as [|c s IH]; simpl; [reflexivity|now rewrite IH]. Qed.

Lemma append_nonempty a b : a <> "" -> a +++ b <> "".
Proof. destruct a; [congruence|simpl; discriminate]. Qed.

Lemma key_ok_nonempty k : key_ok k = true -> k <> "".
Proof.
  unfold key_ok. intros H. apply andb_true_iff in H. destruct H as [H _].
  apply negb_true_iff in H. apply String.eqb_neq in H. exact H.
Qed.

Lemma key_ok_dot_free k : key_ok k = true -> dot_free k = true.
Proof. unfold key_ok. intros H. apply andb_true_iff in H. tauto. Qed.

Lemma new_key_step ks k : ks <> "" -> new_key ks k = ks +++ "." +++ k.
Proof.
  intros H. unfold new_key. apply String.eqb_neq in H. rewrite H. reflexivity.
Qed.

Lemma fold_new_key p : forall ks, ks <> "" -> fold_left new_key p ks = ks +++ dots p.
Proof.
  induction p as [|k p IH]; intros ks H; simpl.
  - rewrite append_nil_r. reflexivity.
  - rewrite new_key_step by exact H. rewrite IH by (apply append_nonempty; exact H).
    rewrite !append_assoc. reflexivity.
Qed.

Lemma path_key k p : key_ok k = true -> fold_left new_key (k :: p) "" = k +++ dots p.
Proof. intros H. simpl. apply fold_new_key. apply key_ok_nonempty. exact H. Qed.

Lemma split_at_dot k1 : forall k2 r1 r2,
  dot_free k1 = true -> dot_free k2 = true -> rest_ok r1 -> rest_ok r2 ->
  k1 +++ r1 = k2 +++ r2 -> k1 = k2 /\ r1 = r2.
Proof.
  induction k1 as [|c k1 IH]; intros k2 r1 r2 D1 D2 R1 R2 E.
  - destruct k2 as [|c2 k2]; [simpl in E; auto|].
    simpl in E, D2. apply andb_true_iff in D2. destruct D2 as [Dc _].
    destruct R1 as [->|[r' ->]]; [discriminate|].
    inversion E; subst. discriminate Dc.
  - simpl in D1. apply andb_true_iff in D1. destruct D1 as [Dc D1].
    destruct k2 as [|c2 k2].
    + simpl in E. destruct R2 as [->|[r' ->]]; [discriminate|].
      inversion E; subst. discriminate Dc.
    + simpl in E, D2. apply andb_true_iff in D2. destruct D2 as [_ D2].
      inversion E; subst.
      destruct (IH k2 r1 r2 D1 D2 R1 R2 H1) as [-> ->]. auto.
Qed.

Lemma dots_rest_ok p : rest_ok (dots p).
Proof. destruct p; [left; reflexivity|right; simpl; eauto]. Qed.

Lemma dots_inj p1 : forall p2,
  Forall (fun k => dot_free k = true) p1 -> Forall (fun k => dot_free k = true) p2 ->
  dots p1 = dots p2 -> p1 = p2.
Proof.
  induction p1 as [|k1 p1 IH]; intros p2 F1 F2 E; destruct p2 as [|k2 p2];
    try reflexivity; try discriminate.
  simpl in E. inversion E as [E'].
  inversion F1; subst. inversion F2; subst.
  destruct (split_at_dot k1 k2 (dots p1) (dots p2)) as [-> Ed]; auto using dots_rest_ok.
  f_equal. apply IH; auto.
Qed.

Lemma Forall_key_dot_free p :
  Forall (fun k => key_ok k = true) p -> Forall (fun k => dot_free k = true) p.
Proof. apply Forall_impl. intros k. apply key_ok_dot_free. Qed.

(** A dotted key determines the path it was built along. *)
Lemma path_key_inj p1 p2 :
  Forall (fun k => key_ok k = true) p1 -> Forall (fun k => key_ok k = true) p2 ->
  fold_left new_key p1 "" = fold_left new_key p2 "" -> p1 = p2.
Proof.
  intros F1 F2 E.
  destruct p1 as [|k1 p1]; destruct p2 as [|k2 p2]; try reflexivity.
  - inversion F2; subst. rewrite (path_key k2 p2) in E by assumption.
    change (fold_left new_key [] "") with "" in E. symmetry in E. apply append_nonempty in E; [contradiction|].
    apply key_ok_nonempty; assumption.
  - inversion F1; subst. rewrite (path_key k1 p1) in E by assumption.
    change (fold_left new_key [] "") with "" in E. apply append_nonempty in E; [contradiction|].
    apply key_ok_nonempty; assumption.
  - inversion F1; subst. inversion F2; subst.
    rewrite !path_key in E by assumption.
    destruct (split_at_dot k1 k2 (dots p1) (dots p2)) as [-> Ed];
      auto using dots_rest_ok, key_ok_dot_free.
    f_equal. apply dots_inj; auto using Forall_key_dot_free.
Qed.

(** ** What a flattened record holds *)

Lemma dict_get_Some_keys {A} K (d : list (string * A)) :
  dict_get K d = None -> ~ In K (keys d).
Proof.
  induction d as [|[k v] d IH]; simpl; [tauto|].
  destruct (String.eqb K k) eqn:E; [discriminate|].
  apply String.eqb_neq in E. intros H [Q|Q]; [congruence|]. apply IH; auto.
Qed.

Lemma In_keys_value {A} K (d : list (string * A)) :
  In K (keys d) -> exists y, In (K, y) d.
Proof.
  unfold keys. intros H. apply in_map_iff in H. destruct H as ([k y] & E & I).
  simpl in E. subst. eauto.
Qed.

(** The entries of a flattened record are the assignments of [leaves] on
    the whole record. *)
Lemma flat_entries_split (d : dict) K y :
  In (K, y) (leaves (VDict d) "") <->
  In (K, y) (filter (fun kv => negb (is_dict (snd kv))) d) \/
  In (K, y) (leaves (VDict (filter (fun kv => is_dict (snd kv)) d)) "").
Proof.
  rewrite !leaves_dict. rewrite !in_flat_map. split.
  - intros ([k v] & I & L). simpl in L. destruct (is_dict v) eqn:Dv.
    + right. exists (k, v). split; [|exact L]. apply filter_In. auto.
    + left. rewrite leaves_leaf in L by exact Dv. destruct L as [L|[]].
      inversion L; subst. apply filter_In. simpl. rewrite Dv. auto.
  - intros [I|([k v] & I & L)].
    + apply filter_In in I. destruct I as [I Dv]. simpl in Dv.
      apply negb_true_iff in Dv. exists (K, y). split; [exact I|].
      simpl. rewrite leaves_leaf by exact Dv. left. reflexivity.
    + apply filter_In in I. destruct I as [I _]. exists (k, v). auto.
Qed.

Lemma flat_lookup_Some (d : dict) K x :
  In (K, x) (leaves (VDict d) "") ->
  (forall y, In (K, y) (leaves (VDict d) "") -> y = x) ->
  dict_get K (normalise_json_ordered d) = Some x.
Proof.
  intros I F. unfold normalise_json_ordered.
  set (top := filter (fun kv => negb (is_dict (snd kv))) d).
  set (nested := filter (fun kv => is_dict (snd kv)) d).
  rewrite normalise_json_leaves.
  set (nd := dict_update [] (leaves (VDict nested) "")).
  assert (Fn : forall y, In (K, y) nd -> y = x).
  { intros y H. apply In_dict_update in H. destruct H as [[]|H].
    apply F. apply flat_entries_split. right. exact H. }
  destruct (dict_get K nd) as [y|] eqn:G.
  - pose proof (dict_get_In _ _ _ G) as Iy. rewrite (Fn _ Iy) in Iy.
    apply dict_get_update_In; assumption.
  - rewrite dict_get_update_notin by (apply dict_get_Some_keys; exact G).
    apply flat_entries_split in I. destruct I as [I|I].
    + destruct (dict_get K top) as [y|] eqn:T.
      * apply dict_get_In in T. f_equal. apply F. apply flat_entries_split. left. exact T.
      * exfalso. apply (dict_get_Some_keys _ _ T). eapply In_keys. exact I.
    + exfalso. assert (Q : dict_get K nd = Some x).
      { apply dict_get_update_In; [exact I|].
        intros y H. apply F. apply flat_entries_split. right. exact H. }
      congruence.
Qed.

Lemma flat_lookup_None (d : dict) K :
  (forall y, ~ In (K, y) (leaves (VDict d) "")) ->
  dict_get K (normalise_json_ordered d) = None.
Proof.
  intros F. unfold normalise_json_ordered. rewrite normalise_json_leaves.
  rewrite dict_get_update_notin.
  - apply dict_get_None. intros H. apply In_keys_value in H. destruct H as [y H].
    apply (F y). apply flat_entries_split. left. exact H.
  - intros H. apply In_keys_value in H. destruct H as [y H].
    apply In_dict_update in H. destruct H as [[]|H].
    apply (F y). apply flat_entries_split. right. exact H.
Qed.

(** A leaf of a well-formed record is found in the flattened record under
    the dotted key of its path. *)
Lemma flatten_leaf (d : dict) (p : list string) (x : pyval) :
  wf_record (VDict d) = true ->
  get_path p (VDict d) = Some x -> is_dict x = false ->
  dict_get (fold_left new_key p "") (normalise_json_ordered d) = Some x.
Proof.
  intros W G L. apply flat_lookup_Some.
  - apply leaves_complete; assumption.
  - intros y I. destruct (leaves_sound _ _ _ _ W I) as (p' & E & Pth & _).
    pose proof (on_path_keys _ _ _ Pth) as K'.
    pose proof (on_path_keys _ _ _ (get_on_path _ _ _ W G)) as K0.
    apply path_key_inj in E; auto. subst p'.
    destruct (on_path_get _ _ _ W Pth) as [G' _]. congruence.
Qed.

Lemma get_path_app p : forall q v x,
  get_path p v = Some x -> get_path (p ++ q) v = get_path q x.
Proof.
  induction p as [|k p IH]; intros q v x H; simpl in *.
  - inversion H; reflexivity.
  - destruct v; try discriminate.
    destruct (dict_get k d); [|discriminate]. apply IH. exact H.
Qed.

(** Below a leaf there is nothing: the flattened record has no key that
    extends the dotted key of a leaf. *)
Lemma flatten_below_leaf (d : dict) (p q : list string) (x : pyval) :
  wf_record (VDict d) = true ->
  get_path p (VDict d) = Some x -> is_dict x = false ->
  q <> [] -> Forall (fun k => key_ok k = true) q ->
  dict_get (fold_left new_key (p ++ q) "") (normalise_json_ordered d) = None.
Proof.
  intros W G L Nq Kq. apply flat_lookup_None. intros y I.
  destruct (leaves_sound _ _ _ _ W I) as (p' & E & Pth & _).
  pose proof (on_path_keys _ _ _ Pth) as K'.
  pose proof (on_path_keys _ _ _ (get_on_path _ _ _ W G)) as K0.
  apply path_key_inj in E; [|apply Forall_app; auto|exact K'].
  subst p'. destruct (on_path_get _ _ _ W Pth) as [G' _].
  rewrite (get_path_app _ _ _ _ G) in G'.
  destruct q as [|k q]; [contradiction|]. simpl in G'.
  destruct x; discriminate.
Qed.

(** ** Cells under the frame operations *)

Lemma rbind_Ok {A B} (r : result A) (k : A -> result B) b :
  rbind r k = Ok b -> exists a, r = Ok a /\ k a = Ok b.
Proof. destruct r as [a|e]; simpl; [eauto|discriminate]. Qed.

Lemma wf_frame_of_records recs : wf_frame (frame_of_records recs).
Proof.
  unfold wf_frame, frame_of_records. simpl. apply Forall_forall.
  intros row H. apply in_map_iff in H. destruct H as (r & <- & _).
  unfold record_row. apply length_map.
Qed.

Lemma frame_cell_of_records recs i r c :
  nth_error recs i = Some r ->
  frame_cell (frame_of_records recs) i c = get_or_nan r c.
Proof.
  intros H. unfold frame_cell, frame_of_records. simpl.
  assert (N : nth i (map (record_row (fold_left add_columns recs [])) recs) [] =
              record_row (fold_left add_columns recs []) r).
  { apply nth_error_nth. apply map_nth_error. exact H. }
  rewrite N. apply cell_record_row. intros k Hk.
  eapply keys_in_columns; [|exact Hk]. eapply nth_error_In. exact H.
Qed.

Lemma cell_nil cols c : cell cols [] c = VNaN.
Proof. unfold cell. destruct (index_of c cols) as [[|j]|]; reflexivity. Qed.

Lemma mask_nil {A} keep : mask keep (@nil A) = [].
Proof. destruct keep; reflexivity. Qed.

Lemma cell_mask labels c cols : forall row,
  mem c labels = false ->
  let keep := map (fun c => negb (mem c labels)) cols in
  cell (mask keep cols) (mask keep row) c = cell cols row c.
Proof.
  induction cols as [|a cols IH]; intros row H; simpl; [reflexivity|].
  destruct row as [|v row].
  - try rewrite mask_nil. rewrite !cell_nil. reflexivity.
  - specialize (IH row H). simpl in IH.
    destruct (mem a labels) eqn:Ma; simpl.
    + assert (Ne : String.eqb c a = false).
      { apply String.eqb_neq. intros ->. congruence. }
      rewrite IH. unfold cell. simpl. rewrite Ne.
      destruct (index_of c cols); reflexivity.
    + unfold cell in *. simpl. destruct (String.eqb c a); [reflexivity|].
      destruct (index_of c (mask _ cols)) as [j|]; simpl;
        destruct (index_of c cols) as [j'|]; simpl; exact IH.
Qed.

Lemma In_mask {A} keep (l : list A) x : In x (mask keep l) -> In x l.
Proof.
  revert keep. induction l as [|a l IH]; intros keep H.
  - rewrite mask_nil in H. contradiction.
  - destruct keep as [|b keep]; [contradiction|]. simpl in H.
    destruct b; [destruct H as [H|H]; [left; exact H|right; eauto]|right; eauto].
Qed.

Lemma length_mask {A B} keep (l : list A) (l' : list B) :
  List.length l = List.length l' -> List.length (mask keep l) = List.length (mask keep l').
Proof.
  revert keep l'. induction l as [|a l IH]; intros keep l' H; destruct l' as [|a' l'];
    try discriminate.
  - rewrite !mask_nil. reflexivity.
  - destruct keep as [|b keep]; [reflexivity|]. simpl.
    destruct b; simpl; [f_equal|]; apply IH; simpl in H; lia.
Qed.

(** [drop] keeps the cells of the columns it keeps. *)
Lemma drop_cells labels df df1 :
  drop labels df = Ok df1 -> wf_frame df ->
  wf_frame df1 /\
  (forall c, In c (columns df1) -> In c (columns df)) /\
  (forall i c, mem c labels = false -> frame_cell df1 i c = frame_cell df i c).
Proof.
  unfold drop. destruct (filter _ labels); [|discriminate].
  intros H W. inversion H; subst; clear H. unfold frame_cell, wf_frame in *. simpl.
  split; [|split].
  - apply Forall_forall. intros row I. apply in_map_iff in I.
    destruct I as (row0 & <- & I0). rewrite Forall_forall in W.
    apply length_mask. apply W. exact I0.
  - intros c. apply In_mask.
  - intros i c Hc.
    assert (N : nth i (map (mask (map (fun c0 => negb (mem c0 labels)) (columns df)))
                           (rows df)) [] =
                mask (map (fun c0 => negb (mem c0 labels)) (columns df)) (nth i (rows df) [])).
    { rewrite <- (mask_nil (map (fun c0 => negb (mem c0 labels)) (columns df))) at 1.
      apply map_nth. }
    rewrite N. apply cell_mask. exact Hc.
Qed.

Lemma index_of_map f c c' cols :
  (forall x, In x cols -> f x = c' -> x = c) -> f c = c' ->
  index_of c' (map f cols) = index_of c cols.
Proof.
  intros Inj Fc. induction cols as [|a cols IH]; simpl; [reflexivity|].
  destruct (String.eqb c a) eqn:E.
  - apply String.eqb_eq in E. subst a. rewrite Fc, String.eqb_refl. reflexivity.
  - assert (Ne : String.eqb c' (f a) = false).
    { apply String.eqb_neq. intros Q. apply String.eqb_neq in E. apply E.
      symmetry. apply Inj; [left; reflexivity|auto]. }
    rewrite Ne, IH; [reflexivity|]. intros x Hx. apply Inj. right. exact Hx.
Qed.

(** [rename] moves a column's cells under its new label, when no other
    column ends up under that label. *)
Lemma rename_cells mapping df c c' i :
  let f := fun c => match dict_get c mapping with Some c' => c' | None => c end in
  (forall x, In x (columns df) -> f x = c' -> x = c) -> f c = c' ->
  frame_cell (rename mapping df) i c' = frame_cell df i c.
Proof.
  intros f Inj Fc. unfold frame_cell, rename, cell. simpl.
  fold f. rewrite (index_of_map f c c'); auto.
Qed.

Lemma nth_set_nth {A} (d : A) idx v : forall (row : list A) j,
  nth j (set_nth idx v row) d =
  if Nat.eqb j idx then (if Nat.ltb idx (List.length row) then v else d) else nth j row d.
Proof.
  induction idx as [|idx IH]; intros row j; destruct row as [|a row]; simpl.
  - destruct j; destruct (Nat.eqb _ _); reflexivity.
  - destruct j; reflexivity.
  - destruct j; destruct (Nat.eqb _ _); reflexivity.
  - destruct j as [|j]; [reflexivity|]. simpl. rewrite IH. reflexivity.
Qed.

Lemma length_set_nth {A} idx (v : A) row : List.length (set_nth idx v row) = List.length row.
Proof.
  revert row. induction idx as [|idx IH]; intros [|a row]; simpl; auto.
Qed.

Lemma nth_set_cells idx : forall vals rws i,
  List.length vals = List.length rws ->
  nth i (set_cells idx vals rws) [] = set_nth idx (nth i vals VNaN) (nth i rws []).
Proof.
  induction vals as [|v vals IH]; intros [|row rws] i H; try discriminate.
  - simpl. destruct i; destruct idx; reflexivity.
  - simpl in H. destruct i as [|i]; simpl; [reflexivity|]. apply IH. lia.
Qed.

Lemma index_of_lt c cols i : index_of c cols = Some i -> (i < List.length cols)%nat.
Proof.
  revert i. induction cols as [|a cols IH]; simpl; intros i H; [discriminate|].
  destruct (String.eqb c a); [inversion H; lia|].
  destruct (index_of c cols) as [j|]; [|discriminate].
  inversion H. specialize (IH j eq_refl). lia.
Qed.

Lemma index_of_same c c' cols i :
  index_of c cols = Some i -> index_of c' cols = Some i -> c' = c.
Proof.
  revert i. induction cols as [|a cols IH]; simpl; intros i H H'; [discriminate|].
  destruct (String.eqb c a) eqn:E; destruct (String.eqb c' a) eqn:E'.
  - apply String.eqb_eq in E, E'. congruence.
  - destruct (index_of c' cols); inversion H; subst; discriminate.
  - destruct (index_of c cols); inversion H'; subst; discriminate.
  - destruct (index_of c cols) as [j|]; [|discriminate].
    destruct (index_of c' cols) as [j'|]; [|discriminate].
    inversion H; inversion H'; subst. apply (IH j); congruence.
Qed.

(** [df[c] = vals] puts [vals] under [c] and leaves the other columns. *)
Lemma set_column_cells c vals df df1 :
  set_column c vals df = Ok df1 -> wf_frame df ->
  wf_frame df1 /\ columns df1 = columns df /\
  List.length (rows df1) = List.length (rows df) /\
  (forall i, (i < List.length (rows df))%nat -> frame_cell df1 i c = nth i vals VNaN) /\
  (forall i c', c' <> c -> frame_cell df1 i c' = frame_cell df i c').
Proof.
  unfold set_column. destruct (index_of c (columns df)) as [idx|] eqn:Ix; [|discriminate].
  destruct (Nat.eqb _ _) eqn:Len; [|discriminate].
  apply Nat.eqb_eq in Len. intros H W. inversion H; subst; clear H.
  unfold frame_cell, wf_frame in *. simpl.
  assert (Lr : List.length (set_cells idx vals (rows df)) = List.length (rows df)).
  { clear Ix W. revert Len. generalize (rows df). induction vals as [|v vals IH];
      intros [|row rws] H; try discriminate; simpl; [reflexivity|].
    f_equal. apply IH. simpl in H. lia. }
  split; [|split; [reflexivity|split; [exact Lr|split]]].
  - apply Forall_forall. intros row I.
    destruct (In_nth _ _ [] I) as (i & Hi & <-).
    rewrite nth_set_cells by exact Len. rewrite length_set_nth.
    rewrite Forall_forall in W. apply W. apply nth_In. lia.
  - intros i Hi. rewrite nth_set_cells by exact Len.
    unfold cell. rewrite Ix. rewrite nth_set_nth, Nat.eqb_refl.
    rewrite Forall_forall in W.
    rewrite (W (nth i (rows df) [])) by (apply nth_In; exact Hi).
    pose proof (index_of_lt _ _ _ Ix) as Lt. apply Nat.ltb_lt in Lt. rewrite Lt. reflexivity.
  - intros i c' Ne. rewrite nth_set_cells by exact Len.
    unfold cell. destruct (index_of c' (columns df)) as [j|] eqn:Jx; [|reflexivity].
    rewrite nth_set_nth. destruct (Nat.eqb j idx) eqn:Q; [|reflexivity].
    apply Nat.eqb_eq in Q. subst j. exfalso. apply Ne. eapply index_of_same; eauto.
Qed.

Lemma mapR_nth {A B} (f : A -> result B) (da : A) (db : B) : forall l vals,
  mapR f l = Ok vals ->
  List.length vals = List.length l /\
  forall i, (i < List.length l)%nat -> f (nth i l da) = Ok (nth i vals db).
Proof.
  induction l as [|a l IH]; intros vals H; simpl in H.
  - inversion H. split; [reflexivity|]. intros i Hi. simpl in Hi. lia.
  - apply rbind_Ok in H. destruct H as (b & Fb & H).
    apply rbind_Ok in H. destruct H as (bs & Fbs & H). inversion H; subst.
    destruct (IH _ Fbs) as [L N]. split; [simpl; lia|].
    intros [|i] Hi; simpl; [exact Fb|]. apply N. simpl in Hi. lia.
Qed.

(** [df[c] = df[c].apply(f)] puts [f] of each cell under [c] and leaves
    the other columns. *)
Lemma apply_column_cells c f df df1 :
  apply_column c f df = Ok df1 -> wf_frame df ->
  wf_frame df1 /\ columns df1 = columns df /\
  List.length (rows df1) = List.length (rows df) /\
  (forall i, (i < List.length (rows df))%nat ->
             f (frame_cell df i c) = Ok (frame_cell df1 i c)) /\
  (forall i c', c' <> c -> frame_cell df1 i c' = frame_cell df i c').
Proof.
  unfold apply_column. intros H W.
  apply rbind_Ok in H. destruct H as (col & G & H).
  apply rbind_Ok in H. destruct H as (vals & Mv & H).
  destruct (set_column_cells _ _ _ _ H W) as (W1 & C1 & L1 & Same & Other).
  split; [exact W1|]. split; [exact C1|]. split; [exact L1|]. split; [|exact Other].
  intros i Hi. rewrite (Same i Hi).
  unfold get_column in G. destruct (index_of c (columns df)) as [idx|] eqn:Ix; [|discriminate].
  inversion G; subst col; clear G.
  destruct (mapR_nth f VNaN VNaN _ _ Mv) as [_ N].
  rewrite length_map in N. rewrite <- (N i Hi).
  f_equal. unfold frame_cell, cell. rewrite Ix.
  assert (D : nth idx (@nil pyval) VNaN = VNaN) by (destruct idx; reflexivity).
  rewrite <- D at 2.
  rewrite (map_nth (fun row : list pyval => nth idx row VNaN)). reflexivity.
Qed.

Lemma to_datetime_column_cells c df df1 :
  to_datetime_column c df = Ok df1 -> wf_frame df ->
  wf_frame df1 /\ columns df1 = columns df /\
  List.length (rows df1) = List.length (rows df) /\
  (forall i c', c' <> c -> frame_cell df1 i c' = frame_cell df i c').
Proof.
  unfold to_datetime_column. intros H W.
  apply rbind_Ok in H. destruct H as (col & G & H).
  destruct (to_datetime col) as [vals|]; [|discriminate].
  destruct (set_column_cells _ _ _ _ H W) as (W1 & C1 & L1 & _ & Other). auto.
Qed.

(** ** Reference columns *)

Ltac rename_cases x :=
  repeat match goal with
         | |- context [String.eqb x ?k] =>
             let E := fresh "E" in
             destruct (String.eqb x k) eqn:E;
             [apply String.eqb_eq in E; subst x|]
         end.

Lemma nth_error_rows recs i (r : dict) :
  nth_error recs i = Some r -> (i < List.length (rows (frame_of_records recs)))%nat.
Proof.
  intros H. rewrite rows_frame_of_records. apply nth_error_Some. congruence.
Qed.

Lemma wf_frame_rename mapping df : wf_frame df -> wf_frame (rename mapping df).
Proof.
  unfold wf_frame, rename. simpl. rewrite length_map. auto.
Qed.

Lemma index_of_In c cols i : index_of c cols = Some i -> In c cols.
Proof.
  revert i. induction cols as [|a cols IH]; simpl; intros i H; [discriminate|].
  destruct (String.eqb c a) eqn:E.
  - apply String.eqb_eq in E. left. congruence.
  - destruct (index_of c cols) as [j|]; [|discriminate]. right. eapply IH. reflexivity.
Qed.

Lemma drop_requires labels df df1 :
  drop labels df = Ok df1 -> forall c, In c labels -> In c (columns df).
Proof.
  unfold drop. destruct (filter _ labels) as [|m ms] eqn:F; [|discriminate].
  intros _ c Hc. destruct (mem c (columns df)) eqn:M; [apply mem_In; exact M|].
  assert (I : In c (filter (fun c0 => negb (mem c0 (columns df))) labels)).
  { apply filter_In. rewrite M. auto. }
  rewrite F in I. contradiction.
Qed.

Lemma mask_keeps (keepf : string -> bool) c cols :
  In c cols -> keepf c = true -> In c (mask (map keepf cols) cols).
Proof.
  induction cols as [|a cols IH]; simpl; intros H K; [contradiction|].
  destruct H as [->|H].
  - rewrite K. left. reflexivity.
  - destruct (keepf a); [right|]; auto.
Qed.

Lemma drop_keeps_column labels df df1 c :
  drop labels df = Ok df1 -> In c (columns df) -> mem c labels = false ->
  In c (columns df1).
Proof.
  unfold drop. destruct (filter _ labels); [|discriminate].
  intros H I M. inversion H; subst; clear H. simpl.
  apply (mask_keeps (fun c0 => negb (mem c0 labels))); [exact I|]. rewrite M. reflexivity.
Qed.

Lemma columns_of_records recs : forall c K,
  In K (fold_left add_columns recs c) ->
  In K c \/ exists r, In r recs /\ In K (keys r).
Proof.
  induction recs as [|r recs IH]; intros c K H; simpl in H; [auto|].
  destruct (IH _ _ H) as [Q|(r' & R & Q)].
  - unfold add_columns in Q. apply in_app_or in Q. destruct Q as [Q|Q]; [auto|].
    apply filter_In in Q. right. exists r. split; [left; reflexivity|tauto].
  - right. exists r'. split; [right; exact R|exact Q].
Qed.

(** Every key of a flattened record is the dotted key of one of its
    leaves. *)
Lemma flat_key_leaf (d : dict) K :
  wf_record (VDict d) = true ->
  In K (keys (normalise_json_ordered d)) ->
  exists p x, K = fold_left new_key p "" /\ get_path p (VDict d) = Some x /\
              is_dict x = false /\ Forall (fun k => key_ok k = true) p.
Proof.
  intros W H. apply In_keys_value in H. destruct H as [x H].
  assert (L : In (K, x) (leaves (VDict d) "")).
  { unfold normalise_json_ordered in H. rewrite normalise_json_leaves in H.
    apply flat_entries_split.
    apply In_dict_update in H. destruct H as [H|H]; [left; exact H|].
    apply In_dict_update in H. destruct H as [[]|H]. right. exact H. }
  destruct (leaves_sound _ _ _ _ W L) as (p & E & Pth & Lf).
  destruct (on_path_get _ _ _ W Pth) as [G _].
  exists p, x. repeat split; auto. eapply on_path_keys. exact Pth.
Qed.

(** A leaf of a record of the batch gives the raw frame a column. *)
Lemma leaf_column (batch : list dict) j (r : dict) p x :
  nth_error batch j = Some r -> wf_record (VDict r) = true ->
  get_path p (VDict r) = Some x -> is_dict x = false ->
  In (fold_left new_key p "")
     (columns (frame_of_records (map normalise_json_ordered batch))).
Proof.
  intros H W G L. unfold frame_of_records. simpl.
  apply (keys_in_columns _ [] (normalise_json_ordered r)).
  - apply in_map. eapply nth_error_In. exact H.
  - eapply In_keys. apply dict_get_In. apply flatten_leaf; eassumption.
Qed.

(** One well-formed record cannot have both a value and members under the
    same path: its flattened form never holds a dotted key together with
    an extension of it. *)
Lemma leaf_or_members (d : dict) (p q : list string) :
  wf_record (VDict d) = true ->
  Forall (fun k => key_ok k = true) p -> Forall (fun k => key_ok k = true) q ->
  q <> [] ->
  In (fold_left new_key p "") (keys (normalise_json_ordered d)) ->
  In (fold_left new_key (p ++ q) "") (keys (normalise_json_ordered d)) ->
  False.
Proof.
  intros W Kp Kq Nq H1 H2.
  destruct (flat_key_leaf d _ W H1) as (p1 & x & E & G & L & K1).
  apply path_key_inj in E; auto. subst p1.
  pose proof (flatten_below_leaf d p q x W G L Nq Kq) as N.
  apply dict_get_Some_keys in N. contradiction.
Qed.

(** C6, amended.  The clean-up of [objects] accepts a batch only when its
    flattened frame has every label it drops, among them both
    [relationships.launch.data] (which a record with a null launch
    supplies) and [relationships.launch.data.type] (which a record with a
    launch reference supplies): a batch of well-formed records that is
    accepted holds at least two records.  In an accepted batch in which
    some record carries a launch id, a well-formed record whose
    [relationships.launch.data] is null has NaN (pandas' null) in the
    [LaunchId] column; one whose [initialOrbits.data] holds one reference
    has the string of that reference's id under [InitOrbitId]; one whose
    list holds two references has the list of the two id strings.  The raw
    frame is taken not to hold columns already called [LaunchId] or
    [InitOrbitId]. *)
Theorem objects_references_by_cardinality
  (batch : list dict) (df' : DataFrame) (i : nat) (rec : dict) :
  normalize "objects" (VList (map VDict batch)) = Ok df' ->
  let raw := frame_of_records (map normalise_json_ordered batch) in
  ~ In "LaunchId" (columns raw) ->
  ~ In "InitOrbitId" (columns raw) ->
  nth_error batch i = Some rec ->
  wf_record (VDict rec) = true ->
  (forall c, In c objects_drop_cols -> In c (columns raw)) /\
  (Forall (fun r => wf_record (VDict r) = true) batch -> (2 <= List.length batch)%nat) /\
  (forall j recj idv,
      get_path ["relationships"; "launch"; "data"] (VDict rec) = Some VNone ->
      nth_error batch j = Some recj ->
      wf_record (VDict recj) = true ->
      get_path ["relationships"; "launch"; "data"; "id"] (VDict recj) = Some idv ->
      is_dict idv = false ->
      In "LaunchId" (columns df') /\ frame_cell df' i "LaunchId" = VNaN) /\
  (forall ref id,
      get_path ["relationships"; "initialOrbits"; "data"] (VDict rec) = Some (VList [ref]) ->
      getitem ref "id" = Ok id ->
      In "InitOrbitId" (columns df') /\
      frame_cell df' i "InitOrbitId" = VStr (py_str id)) /\
  (forall ref1 ref2 id1 id2,
      get_path ["relationships"; "initialOrbits"; "data"] (VDict rec) =
        Some (VList [ref1; ref2]) ->
      getitem ref1 "id" = Ok id1 ->
      getitem ref2 "id" = Ok id2 ->
      In "InitOrbitId" (columns df') /\
      frame_cell df' i "InitOrbitId" = VList [VStr (py_str id1); VStr (py_str id2)]).
Proof.
  intros N raw NoL NoI Hi W.
  unfold normalize in N. rewrite json_normalize_records in N. simpl rbind in N.
  fold raw in N.
  change (clean_discos "objects" raw) with (clean_discos_objects raw) in N.
  unfold clean_discos_objects in N.
  apply rbind_Ok in N. destruct N as (d1 & D1 & N).
  apply rbind_Ok in N. destruct N as (d3 & D3 & N).
  apply rbind_Ok in N. destruct N as (d4 & D4 & N).
  apply rbind_Ok in N. destruct N as (d5 & D5 & D6).
  set (d2 := rename objects_rename_cols d1) in *.
  destruct (drop_cells _ _ _ D1 (wf_frame_of_records _)) as (W1 & In1 & Cell1).
  assert (W2 : wf_frame d2) by (apply wf_frame_rename; exact W1).
  destruct (apply_column_cells _ _ _ _ D3 W2) as (W3 & C3 & L3 & Same3 & Other3).
  destruct (apply_column_cells _ _ _ _ D4 W3) as (W4 & C4 & L4 & _ & Other4).
  destruct (apply_column_cells _ _ _ _ D5 W4) as (W5 & C5 & L5 & _ & Other5).
  destruct (apply_column_cells _ _ _ _ D6 W5) as (_ & C6 & _ & _ & Other6).
  assert (Cols : columns df' = columns d2) by congruence.
  assert (Rows : (i < List.length (rows d2))%nat).
  { unfold d2. simpl.
    unfold drop in D1. destruct (filter _ objects_drop_cols); [|discriminate].
    inversion D1; subst d1. simpl. rewrite length_map.
    apply (nth_error_rows _ _ (normalise_json_ordered rec)).
    apply map_nth_error. exact Hi. }
  assert (Raw : forall c, frame_cell raw i c = get_or_nan (normalise_json_ordered rec) c).
  { intros c. apply frame_cell_of_records. apply map_nth_error. exact Hi. }
  assert (Launch : frame_cell d2 i "LaunchId" =
                   frame_cell raw i "relationships.launch.data.id").
  { unfold d2. rewrite (rename_cells _ _ "relationships.launch.data.id").
    - apply Cell1. reflexivity.
    - intros x Hx. simpl. unfold objects_rename_cols. simpl dict_get.
      rename_cases x; try discriminate; try reflexivity.
      intros ->. exfalso. apply NoL. apply In1. exact Hx.
    - reflexivity. }
  assert (Orbit : frame_cell d2 i "InitOrbitId" =
                  frame_cell raw i "relationships.initialOrbits.data").
  { unfold d2. rewrite (rename_cells _ _ "relationships.initialOrbits.data").
    - apply Cell1. reflexivity.
    - intros x Hx. simpl. unfold objects_rename_cols. simpl dict_get.
      rename_cases x; try discriminate; try reflexivity.
      intros ->. exfalso. apply NoI. apply In1. exact Hx.
    - reflexivity. }
  assert (Final : frame_cell df' i "InitOrbitId" = frame_cell d3 i "InitOrbitId").
  { rewrite Other6, Other5, Other4 by discriminate. reflexivity. }
  assert (HasOrbit : In "InitOrbitId" (columns df')).
  { rewrite C6, C5, C4, C3.
    unfold apply_column in D3. apply rbind_Ok in D3. destruct D3 as (col & G & _).
    unfold get_column in G.
    destruct (index_of "InitOrbitId" (columns d2)) eqn:Ix; [|discriminate].
    eapply index_of_In. exact Ix. }
  split; [exact (drop_requires _ _ _ D1)|]. split; [|split; [|split]].
  - intros Wf.
    pose proof (drop_requires _ _ _ D1) as Req.
    assert (A : In "relationships.launch.data" (columns raw)).
    { apply Req. unfold objects_drop_cols. simpl. tauto. }
    assert (B : In "relationships.launch.data.type" (columns raw)).
    { apply Req. unfold objects_drop_cols. simpl. tauto. }
    destruct batch as [|r0 [|r1 rest]]; [contradiction A| |simpl; lia].
    exfalso. inversion Wf as [|? ? W0 _]; subst.
    unfold raw, frame_of_records in A, B. simpl in A, B.
    rewrite add_columns_nil in A, B.
    apply (leaf_or_members r0 ["relationships"; "launch"; "data"] ["type"] W0);
      try (repeat constructor); try discriminate; assumption.
  - intros j recj idv G Hj Wj Gj Lj.
    split.
    + rewrite Cols. unfold d2, rename. simpl.
      apply in_map_iff. exists "relationships.launch.data.id". split; [reflexivity|].
      apply (drop_keeps_column _ _ _ _ D1); [|reflexivity].
      apply (leaf_column batch j recj ["relationships"; "launch"; "data"; "id"] idv);
        assumption.
    + rewrite Other6, Other5, Other4, Other3 by discriminate.
      rewrite Launch, Raw. unfold get_or_nan.
      change "relationships.launch.data.id"
        with (fold_left new_key (["relationships"; "launch"; "data"] ++ ["id"]) "").
      rewrite (flatten_below_leaf rec _ ["id"] VNone W G); try reflexivity.
      * discriminate.
      * repeat constructor.
  - intros ref id G Gid. split; [exact HasOrbit|].
    pose proof (Same3 i Rows) as S. rewrite Orbit, Raw in S. unfold get_or_nan in S.
    change "relationships.initialOrbits.data"
      with (fold_left new_key ["relationships"; "initialOrbits"; "data"] "") in S.
    rewrite (flatten_leaf rec _ _ W G eq_refl) in S.
    unfold lambda_ref_ids in S. simpl in S. rewrite Gid in S. simpl in S.
    rewrite Final. congruence.
  - intros ref1 ref2 id1 id2 G G1 G2. split; [exact HasOrbit|].
    pose proof (Same3 i Rows) as S. rewrite Orbit, Raw in S. unfold get_or_nan in S.
    change "relationships.initialOrbits.data"
      with (fold_left new_key ["relationships"; "initialOrbits"; "data"] "") in S.
    rewrite (flatten_leaf rec _ _ W G eq_refl) in S.
    unfold lambda_ref_ids in S. simpl in S. rewrite G1, G2 in S. simpl in S.
    rewrite Final. congruence.
Qed.



(** ** The clean-up keeps the rows and takes the dropped labels away *)

Lemma drop_rows labels df df1 :
  drop labels df = Ok df1 -> List.length (rows df1) = List.length (rows df).
Proof.
  unfold drop. destruct (filter _ labels); [|discriminate].
  intros H. inversion H; subst. simpl. apply length_map.
Qed.

Lemma drop_columns labels df df1 c :
  drop labels df = Ok df1 -> In c (columns df1) -> mem c labels = false.
Proof.
  unfold drop. destruct (filter _ labels); [|discriminate].
  intros H. inversion H; subst; clear H. simpl.
  induction (columns df) as [|a cols IH]; simpl; [contradiction|].
  destruct (mem a labels) eqn:M; simpl; [exact IH|].
  intros [<-|I]; [exact M|auto].
Qed.

Lemma rename_avoids mapping labels df c :
  forallb (fun kv => negb (mem (snd kv) labels)) mapping = true ->
  (forall x, In x (columns df) -> mem x labels = false) ->
  In c (columns (rename mapping df)) -> mem c labels = false.
Proof.
  intros T K H. unfold rename in H. simpl in H.
  apply in_map_iff in H. destruct H as (x & <- & Hx).
  destruct (dict_get x mapping) as [v|] eqn:G; [|auto].
  apply dict_get_In in G. rewrite forallb_forall in T.
  specialize (T _ G). simpl in T. apply negb_true_iff in T. exact T.
Qed.

Ltac column_steps :=
  repeat match goal with
         | H : apply_column _ _ ?d = Ok _, W : wf_frame ?d |- _ =>
             let W' := fresh "W" in let C := fresh "C" in let L := fresh "L" in
             destruct (apply_column_cells _ _ _ _ H W) as (W' & C & L & _); clear H
         | H : to_datetime_column _ ?d = Ok _, W : wf_frame ?d |- _ =>
             let W' := fresh "W" in let C := fresh "C" in let L := fresh "L" in
             destruct (to_datetime_column_cells _ _ _ H W) as (W' & C & L & _); clear H
         end.

Lemma cleaner_keeps labels mapping df d1 df' :
  wf_frame df ->
  drop labels df = Ok d1 ->
  forallb (fun kv => negb (mem (snd kv) labels)) mapping = true ->
  wf_frame df' ->
  columns df' = columns (rename mapping d1) ->
  List.length (rows df') = List.length (rows (rename mapping d1)) ->
  cleaned labels df df'.
Proof.
  intros W D T W' C L. split; [exact W'|]. split.
  - rewrite L. simpl. apply (drop_rows _ _ _ D).
  - intros c Hc. rewrite C in Hc. apply (rename_avoids mapping labels d1); auto.
    intros x Hx. apply (drop_columns _ _ _ _ D Hx).
Qed.

Lemma clean_discos_cleaned database df df' :
  clean_discos database df = Ok df' -> wf_frame df ->
  cleaned (drop_cols_of database) df df'.
Proof.
  unfold clean_discos, clean, drop_cols_of. simpl dict_get.
  intros N W.
  repeat match type of N with
         | context [String.eqb database ?k] =>
             destruct (String.eqb database k) eqn:?
         end; try discriminate N.
  - unfold clean_discos_objects in N.
    apply rbind_Ok in N. destruct N as (d1 & D1 & N).
    apply rbind_Ok in N. destruct N as (d3 & D3 & N).
    apply rbind_Ok in N. destruct N as (d4 & D4 & N).
    apply rbind_Ok in N. destruct N as (d5 & D5 & D6).
    destruct (drop_cells _ _ _ D1 W) as (W1 & _ & _).
    pose proof (wf_frame_rename objects_rename_cols _ W1) as W2.
    column_steps.
    apply (cleaner_keeps _ objects_rename_cols df d1); auto; congruence.
  - unfold clean_discos_launches in N.
    apply rbind_Ok in N. destruct N as (d1 & D1 & N).
    apply rbind_Ok in N. destruct N as (d3 & D3 & D4).
    destruct (drop_cells _ _ _ D1 W) as (W1 & _ & _).
    pose proof (wf_frame_rename launches_rename_cols _ W1) as W2.
    column_steps.
    apply (cleaner_keeps _ launches_rename_cols df d1); auto; congruence.
  - unfold clean_discos_reentries in N.
    apply rbind_Ok in N. destruct N as (d1 & D1 & D3).
    destruct (drop_cells _ _ _ D1 W) as (W1 & _ & _).
    pose proof (wf_frame_rename reentries_rename_cols _ W1) as W2.
    column_steps.
    apply (cleaner_keeps _ reentries_rename_cols df d1); auto; congruence.
  - unfold clean_discos_launchsites in N.
    apply rbind_Ok in N. destruct N as (d1 & D1 & D3). inversion D3; subst df'.
    destruct (drop_cells _ _ _ D1 W) as (W1 & _ & _).
    pose proof (wf_frame_rename launchsites_rename_cols _ W1) as W2.
    apply (cleaner_keeps _ launchsites_rename_cols df d1); auto.
  - unfold clean_discos_orbits in N.
    apply rbind_Ok in N. destruct N as (d1 & D1 & D3). inversion D3; subst df'.
    destruct (drop_cells _ _ _ D1 W) as (W1 & _ & _).
    pose proof (wf_frame_rename orbits_rename_cols _ W1) as W2.
    apply (cleaner_keeps _ orbits_rename_cols df d1); auto.
  - unfold clean_discos_fragmentations in N.
    apply rbind_Ok in N. destruct N as (d1 & D1 & N).
    apply rbind_Ok in N. destruct N as (d3 & D3 & D4).
    destruct (drop_cells _ _ _ D1 W) as (W1 & _ & _).
    pose proof (wf_frame_rename fragmentations_rename_cols _ W1) as W2.
    column_steps.
    apply (cleaner_keeps _ fragmentations_rename_cols df d1); auto; congruence.
Qed.

(** X1.  Whichever of the six cleaners [clean_discos] dispatches to, a
    clean-up that succeeds on a well-formed frame returns a well-formed
    frame with the same number of rows, and none of the labels the
    cleaner drops is left among its columns. *)
Theorem clean_keeps_rows_and_drops_labels (database : string) (df df' : DataFrame) :
  clean_discos database df = Ok df' ->
  wf_frame df ->
  wf_frame df' /\
  List.length (rows df') = List.length (rows df) /\
  forall c, In c (drop_cols_of database) -> ~ In c (columns df').
Proof.
  intros N W. destruct (clean_discos_cleaned _ _ _ N W) as (W' & L & C).
  split; [exact W'|]. split; [exact L|].
  intros c Hc I. apply C in I. apply mem_In in Hc. congruence.
Qed.

(** ** Any number of pages *)

(** X2.  For any page count [n] the first response announces: when the
    first response is successful and the requests for the pages 2 to [n]
    are answered with lists of records, the fetch returns the frame of
    all records in page order, page 1 first, with one row per record.
    When [n] is 1 or less, no page is requested after the first. *)
Theorem pages_in_request_order
  (database : string) (params : dict) (w w' : World) (r1 : response)
  (n : Z) (d1 : list dict) (ds : list (list dict)) :
  discos_params database = Ok params ->
  net w (net_calls w) (mkRequest (db_url database) discos_headers params) = Ok r1 ->
  ok r1 = true ->
  total_pages r1 = Ok (VInt n) ->
  page_data r1 = Ok (VList (map VDict d1)) ->
  pages_served (db_url database) discos_headers
    (map Z.of_nat (seq 2 (Z.to_nat (n - 1)))) params
    (after_get w (mkRequest (db_url database) discos_headers params)) ds w' ->
  let recs := map normalise_json_ordered (d1 ++ List.concat ds) in
  fetch_pages database w = (Ok (frame_of_records recs), w') /\
  List.length (rows (frame_of_records recs)) =
    (List.length d1 + List.length (List.concat ds))%nat /\
  List.length ds = Z.to_nat (n - 1) /\
  (n <= 1 -> w' = after_get w (mkRequest (db_url database) discos_headers params)).
Proof.
  intros P N O T D1 S recs. split; [|split; [|split]].
  - unfold fetch_pages.
    rewrite (bind_lift_ok _ _ _ _ P).
    unfold bind at 1. rewrite requests_get_eq, N, O. change (negb true) with false. cbv iota.
    rewrite (bind_lift_ok _ _ _ _ D1), (bind_lift_ok _ _ _ _ (json_normalize_records d1)),
            (bind_lift_ok _ _ _ _ T).
    assert (R : page_range (VInt n) = Ok (map Z.of_nat (seq 2 (Z.to_nat (n - 1)))))
      by reflexivity.
    rewrite (bind_lift_ok _ _ _ _ R).
    rewrite (pages_loop_served _ _ _ _ _ _ _ _ S).
    unfold recs. rewrite map_app. reflexivity.
  - rewrite rows_frame_of_records. unfold recs. rewrite length_map, length_app. reflexivity.
  - clear - S. remember (map Z.of_nat (seq 2 (Z.to_nat (n - 1)))) as pages eqn:E.
    assert (L : List.length pages = Z.to_nat (n - 1))
      by (subst pages; rewrite length_map, length_seq; reflexivity).
    rewrite <- L. clear E L. induction S; simpl; [reflexivity|]. f_equal. exact IHS.
  - intros Hn. replace (Z.to_nat (n - 1)) with 0%nat in S by lia. simpl in S.
    inversion S. reflexivity.
Qed.

End Properties.

(** ** The built-ins on examples *)

Example int_of_string_ex :
  int_of_string " 12_345 " = Some 12345 /\ int_of_string "-7" = Some (-7) /\
  int_of_string "1__2" = None /\ int_of_string "" = None /\ int_of_string "007" = Some 7.
Proof. repeat split; reflexivity. Qed.

Example findall_date_ex :
  findall_date "./esa_data/objects_2021-03-04_2022-11-30.csv" = ["2021-03-04"; "2022-11-30"] /\
  findall_date "./esa_data/objects_12021-03-045.csv" = ["2021-03-04"] /\
  findall_date "./esa_data/objects_latest.csv" = [].
Proof. repeat split; reflexivity. Qed.

Example strptime_ex :
  strptime "2024-02-29" = Ok (mkDatetime 2024 2 29 0) /\
  strptime "2023-02-29" = Raise ValueError /\
  strptime "2023-13-01" = Raise ValueError /\
  strptime "0000-01-01" = Raise ValueError.
Proof. repeat split; reflexivity. Qed.

Example strftime_ex : strftime (mkDatetime 2026 11 4 123) = "2026-11-04".
Proof. reflexivity. Qed.

Example ymd2ord_ex : ymd2ord 1 1 1 = 1 /\ ymd2ord 2026 11 4 = 739924.
Proof. split; reflexivity. Qed.

(** ** Runs on the sample data *)

Section SampleRuns.
Import Sample.
#[local] Existing Instance runtime.

(** C1.  Three pages of re-entries, the answer to the request for page 2
    being a server error ([ok] false).  When the error body carries an
    (empty) [data] member the fetch goes on: [get_data] returns the rows
    of pages 1 and 3 and writes them to the cache.  When it carries no
    [data] member the fetch does abort, yet with the KeyError of the
    failed lookup and not with a MyError holding the server's payload. *)
Theorem failed_later_page_not_reported :
  (let out := get_data "reentries" (world (Some []) (failing_page2 error_with_data)) in
   fst out = Ok (mkFrame ["ReentryId"; "Epoch"]
                         [[VStr "1"; VStr "2020-01-01"]; [VStr "3"; VStr "2020-03-03"]]) /\
   esa_data (snd out) = Some [("reentries_2026-11-04.csv", "ReentryId,Epoch")] /\
   trace (snd out) = [ Get (reentries_request 1); Get (reentries_request 2);
                       Get (reentries_request 3);
                       WriteFile "./esa_data/reentries_2026-11-04.csv" ]) /\
  (let out := get_data "reentries" (world (Some []) (failing_page2 error_without_data)) in
   fst out = Raise (KeyError ["data"]) /\
   esa_data (snd out) = Some [] /\
   trace (snd out) = [ Get (reentries_request 1); Get (reentries_request 2) ]).
Proof. vm_compute. repeat split; reflexivity. Qed.


(** The wait, when it happens, comes after the request for the page has
    been made once, and the request is then made a second time. *)
Example wait_after_second_request :
  trace (snd (fetch_pages "reentries" (world (Some []) quota_used_on_page2))) =
  [ Get (reentries_request 1); Get (reentries_request 2); Sleep 15;
    Get (reentries_request 2) ].
Proof. vm_compute. reflexivity. Qed.

(** C8, refuted as stated: the empty sequence of raw records flattens to a
    frame without columns, and the clean-up of [objects] fails on it when
    it drops its first set of labels. *)
Lemma normalize_empty_objects_fails :
  normalize "objects" (VList []) = Raise (KeyError objects_drop_cols).
Proof. reflexivity. Qed.


(** C3, refuted as stated.  The directory holds a readable file of
    [objects] that is 34 days old.  Beside a file whose stamp
    [2026-13-40] names no date, [get_data] ends in the ValueError of
    [strptime]; and when the fresh file itself is empty, it ends in the
    read error.  Neither call returns the contents of the fresh file. *)
Lemma fresh_file_not_returned :
  strptime "2026-10-01" = Ok (mkDatetime 2026 10 1 0) /\
  to_us noon - to_us (mkDatetime 2026 10 1 0) < timedelta_days max_age_days /\
  fst (get_data "objects" (world (Some cache_with_bad_stamp) one_page)) = Raise ValueError /\
  fst (get_data "objects" (world (Some cache_with_empty_file) one_page)) = Raise ParserError.
Proof. vm_compute. repeat split; reflexivity. Qed.

(** C9, refuted as stated.  The only candidate is fresh and cannot be
    read: [get_data] ends in the read error, having made no request. *)
Lemma unreadable_file_aborts_get :
  let out := get_data "objects" (world (Some cache_with_empty_file) one_page) in
  fst out = Raise ParserError /\
  net_calls (snd out) = 0%nat /\
  trace (snd out) = [ReadFile "./esa_data/objects_2026-10-01.csv"].
Proof. vm_compute. repeat split; reflexivity. Qed.


(** C6, refuted as stated.  A record of [objects] on its own is not
    normalized at all.  The record with a null launch lacks the column
    [relationships.launch.data.type], the launched record lacks the column
    [relationships.launch.data], and the clean-up drops both: either
    single-record batch ends in the KeyError of [drop], so there is no
    [LaunchId] and no [InitOrbitId] to speak of. *)
Lemma single_object_record_rejected :
  normalize "objects"
    (VList [VDict (space_object "2" "Fragment" (VStr "123") VNone VNone
                     [reference "initialOrbit" "21"; reference "initialOrbit" "22"] [] [])]) =
    Raise (KeyError ["relationships.launch.data.type"; "relationships.reentry.data.type"]) /\
  normalize "objects"
    (VList [VDict (space_object "1" "Sputnik" VNone (reference "launch" "77")
                     (reference "reentry" "5") [reference "initialOrbit" "11"] []
                     [reference "organisation" "3"])]) =
    Raise (KeyError ["relationships.reentry.data"; "relationships.launch.data"]).
Proof. vm_compute. split; reflexivity. Qed.

End SampleRuns.


Section SampleWitnesses.
Import Sample.
#[local] Existing Instance runtime.



Lemma three_pages_in_request_order_witness :
  let w := world (Some []) three_pages in
  let recs := map normalise_json_ordered
                  (reentries 1 100 ++ reentries 101 100 ++ reentries 201 50) in
  let df := frame_of_records recs in
  fetch_pages "reentries" w =
    (Ok df, after_get (after_get (after_get w (reentries_request 1)) (reentries_request 2))
                      (reentries_request 3)) /\
  List.length (rows df) = 250%nat /\
  rows df = map (record_row (columns df)) recs.
Proof.
  intros w.
  apply (three_pages_in_request_order "reentries" (params (reentries_request 1)) w
           (after_get (after_get w (reentries_request 1)) (reentries_request 2))
           (after_get (after_get (after_get w (reentries_request 1)) (reentries_request 2))
                      (reentries_request 3))
           (mkResponse true (quota "99") (Some (body (map VDict (reentries 1 100)) 3)))
           (mkResponse true (quota "98") (Some (body (map VDict (reentries 101 100)) 3)))
           (mkResponse true (quota "97") (Some (body (map VDict (reentries 201 50)) 3)))
           (reentries 1 100) (reentries 101 100) (reentries 201 50));
    reflexivity.
Defined.


Lemma stale_cache_is_refetched_witness :
  let w := world (Some stale_cache) one_page in
  let out := get_data "reentries" w in
  (exists req evs, trace (snd out) = trace w ++ Get req :: evs) /\
  (forall df, fst out = Ok df ->
     ~ In "reentries_2026-11-04.csv" (keys stale_cache) /\
     esa_data (snd out) =
       Some (stale_cache ++ [("reentries_2026-11-04.csv", to_csv df)]) /\
     exists evs, Forall net_event evs /\
                 trace (snd out) =
                 trace w ++ evs ++ [WriteFile (path_of "reentries_2026-11-04.csv")]).
Proof.
  intros w.
  apply (stale_cache_is_refetched "reentries" w stale_cache).
  - reflexivity.
  - reflexivity.
  - intros k. reflexivity.
  - intros i j _. simpl. lia.
  - reflexivity.
  - intros f a H. vm_compute in H. destruct H as [H|[]]. inversion H. vm_compute. discriminate.
Defined.

Lemma unsupported_database_raises_witness :
  let w := world (Some []) one_page in
  (exists e w', retrieve_discos_data "launch-vehicles" w = (Raise e, w')) /\
  retrieve_discos_data "launch-vehicles" w = (Raise UnboundLocalError, w) /\
  (exists w1, retrieve_discos_data "entities" w = (Raise (KeyError ["entities"]), w1)) /\
  (exists e w', get_data "entities" w = (Raise e, w') /\ esa_data w' = Some []).
Proof.
  intros w.
  destruct (unsupported_database_raises "launch-vehicles" w) as (A & B & _ & _);
    [reflexivity|].
  destruct (unsupported_database_raises "entities" w) as (_ & _ & C & D);
    [reflexivity|].
  split; [exact A|]. split; [apply B; reflexivity|]. split.
  - eexists. apply (C (mkFrame ["type"; "id"; "attributes.epoch";
                                "relationships.objects.links.self";
                                "relationships.objects.links.related"; "links.self"]
                               [[VStr "reentry"; VStr "7"; VStr "2021-05-06";
                                 VStr "/api/reentries/7/relationships/objects";
                                 VStr "/api/reentries/7/objects"; VStr "/api/reentries/7"]])).
    reflexivity.
  - apply D. reflexivity.
Defined.


Lemma fresh_cache_is_read_witness :
  let w := world (Some fresh_cache) one_page in
  let ages := measured_ages (clock w) (S (clock_reads w)) (candidates "objects" fresh_cache) in
  let out := get_data "objects" w in
  exists f a content,
    In (f, a) ages /\ a < timedelta_days max_age_days /\
    (forall f' a', In (f', a') ages -> a <= a') /\
    find_file f fresh_cache = Some content /\
    fst out = read_result content /\
    esa_data (snd out) = Some fresh_cache /\
    net_calls (snd out) = net_calls w /\
    trace (snd out) = trace w ++ [ReadFile f].
Proof.
  intros w.
  apply (fresh_cache_is_read "objects" w fresh_cache).
  - reflexivity.
  - reflexivity.
  - exists "./esa_data/objects_2026-10-01.csv", (34 * day_us + 43200000000).
    split; [vm_compute; right; left; reflexivity | vm_compute; reflexivity].
Defined.

Example fresh_cache_run :
  fst (get_data "objects" (world (Some fresh_cache) one_page)) =
  Ok (mkFrame ["text"] [[VStr "DiscosID,younger"]]).
Proof. reflexivity. Qed.

Lemma unreadable_choice_aborts_witness :
  let w := world (Some cache_with_empty_file) one_page in
  let ages := measured_ages (clock w) (S (clock_reads w))
                            (candidates "objects" cache_with_empty_file) in
  let out := get_data "objects" w in
  (forall filelist m r w0,
      scan_files filelist m r w0 = scan_files (filter has_stamp filelist) m r w0) /\
  (forall w0 files0,
      esa_data w0 = Some files0 ->
      forallb (fun f => negb (has_stamp f)) (candidates "objects" files0) = true ->
      get_data "objects" w0 = fetch_and_store "objects" (tick 1 w0)) /\
  exists f a content,
    In (f, a) ages /\ (forall f' a', In (f', a') ages -> a <= a') /\
    find_file f cache_with_empty_file = Some content /\
    (read_csv content = None ->
       fst out = Raise ParserError /\
       net_calls (snd out) = net_calls w /\
       esa_data (snd out) = Some cache_with_empty_file /\
       trace (snd out) = trace w ++ [ReadFile f]).
Proof.
  intros w.
  apply (unreadable_choice_aborts "objects" w cache_with_empty_file).
  - reflexivity.
  - reflexivity.
  - exists "./esa_data/objects_2026-10-01.csv", (34 * day_us + 43200000000).
    split; [vm_compute; left; reflexivity | vm_compute; reflexivity].
Defined.


Example objects_batch_normalized :
  normalize "objects" (VList (map VDict objects_batch)) =
  Ok (mkFrame
        [ "DiscosID"; "IntlDes"; "VimpelId"; "SatNo"; "SatName"; "ObjectType"; "Mass";
          "InitOrbitId"; "LaunchId"; "ReentryId"; "OperatorId"; "DestOrbitId" ]
        [ [ VStr "1"; VStr "1957-0011"; VNaN; VInt 2; VStr "Sputnik"; VStr "Payload";
            VFloat (836 # 10); VStr "11"; VStr "77"; VStr "5"; VStr "3"; VNaN ];
          [ VStr "2"; VStr "1957-0012"; VStr "123"; VInt 2; VStr "Fragment"; VStr "Payload";
            VFloat (836 # 10); VList [VStr "21"; VStr "22"]; VNaN; VNaN; VNaN; VNaN ] ]).
Proof. vm_compute. reflexivity. Qed.

Lemma objects_references_by_cardinality_witness :
  let df' := frame_or_empty (normalize "objects" (VList (map VDict objects_batch))) in
  (2 <= List.length objects_batch)%nat /\
  (In "LaunchId" (columns df') /\ frame_cell df' 1 "LaunchId" = VNaN) /\
  (In "InitOrbitId" (columns df') /\ frame_cell df' 0 "InitOrbitId" = VStr "11") /\
  (In "InitOrbitId" (columns df') /\
   frame_cell df' 1 "InitOrbitId" = VList [VStr "21"; VStr "22"]).
Proof.
  intros df'.
  assert (N : normalize "objects" (VList (map VDict objects_batch)) = Ok df')
    by (vm_compute; reflexivity).
  assert (NoL : ~ In "LaunchId"
                  (columns (frame_of_records (map normalise_json_ordered objects_batch))))
    by (vm_compute; intuition discriminate).
  assert (NoI : ~ In "InitOrbitId"
                  (columns (frame_of_records (map normalise_json_ordered objects_batch))))
    by (vm_compute; intuition discriminate).
  destruct (objects_references_by_cardinality objects_batch df' 1
              (space_object "2" "Fragment" (VStr "123") VNone VNone
                 [reference "initialOrbit" "21"; reference "initialOrbit" "22"] [] [])
              N NoL NoI eq_refl eq_refl) as (_ & Two_records & Launch & _ & Two).
  destruct (objects_references_by_cardinality objects_batch df' 0
              (space_object "1" "Sputnik" VNone (reference "launch" "77")
                 (reference "reentry" "5") [reference "initialOrbit" "11"] []
                 [reference "organisation" "3"])
              N NoL NoI eq_refl eq_refl) as (_ & _ & _ & One & _).
  split; [apply Two_records; repeat constructor|]. split.
  - apply (Launch 0%nat
             (space_object "1" "Sputnik" VNone (reference "launch" "77")
                (reference "reentry" "5") [reference "initialOrbit" "11"] []
                [reference "organisation" "3"])
             (VStr "77")); reflexivity.
  - split.
    + apply (One (reference "initialOrbit" "11") (VStr "11")); reflexivity.
    + apply (Two (reference "initialOrbit" "21") (reference "initialOrbit" "22")
                 (VStr "21") (VStr "22")); reflexivity.
Defined.


Lemma normalize_empty_raises_witness :
  json_normalize (VList []) = Ok (mkFrame [] []) /\
  exists labels, labels <> [] /\
    normalize "fragmentations" (VList []) = Raise (KeyError labels).
Proof. apply (normalize_empty_raises "fragmentations"). reflexivity. Defined.


Lemma clean_keeps_rows_and_drops_labels_witness :
  let df := frame_of_records (map normalise_json_ordered (reentries 1 3)) in
  let df' := frame_or_empty (clean_discos "reentries" df) in
  wf_frame df' /\
  List.length (rows df') = List.length (rows df) /\
  forall c, In c (drop_cols_of "reentries") -> ~ In c (columns df').
Proof.
  intros df df'.
  apply (clean_keeps_rows_and_drops_labels "reentries" df df').
  - vm_compute. reflexivity.
  - unfold wf_frame. vm_compute. repeat constructor.
Defined.


Lemma pages_in_request_order_witness :
  let w := world (Some []) three_pages in
  let w' := after_get (after_get (after_get w (reentries_request 1)) (reentries_request 2))
                      (reentries_request 3) in
  let ds := [reentries 101 100; reentries 201 50] in
  let recs := map normalise_json_ordered (reentries 1 100 ++ List.concat ds) in
  fetch_pages "reentries" w = (Ok (frame_of_records recs), w') /\
  List.length (rows (frame_of_records recs)) =
    (List.length (reentries 1 100) + List.length (List.concat ds))%nat /\
  List.length ds = Z.to_nat (3 - 1) /\
  (3 <= 1 -> w' = after_get w (reentries_request 1)).
Proof.
  intros w w' ds.
  apply (pages_in_request_order "reentries" (params (reentries_request 1)) w w'
           (mkResponse true (quota "99") (Some (body (map VDict (reentries 1 100)) 3)))
           3 (reentries 1 100) ds); try reflexivity.
  eapply served_cons; [reflexivity|reflexivity|].
  eapply served_cons; [reflexivity|reflexivity|].
  apply served_nil.
Defined.

End SampleWitnesses.
